(** * Schema inference and load of the data warehouse (main.py)

    A shallow embedding of the [DataWarehouse] methods [get_mysql_field],
    [create_query] and [load_transformed] of main.py, with the parts of
    Python and pandas they rely on, and the properties of the column type
    inference, of the generated CREATE TABLE statement and of the loader;
    then of [create_db_mysql], of the two [execute] methods and of
    [pipeline], over the libraries they call. *)

From Stdlib Require Import ZArith List String Ascii Bool Lia DecimalString.
Import ListNotations.

Local Open Scope string_scope.
Local Open Scope Z_scope.

(** ** Python values, exceptions and strings *)

Module Py.

(** The exceptions the modelled code can raise.  [SinkError] stands for
    any exception raised inside the database driver. *)
Inductive exn : Type :=
| ValueError (msg : string)
| NameError (msg : string)
| AttributeError (msg : string)
| SinkError (msg : string).

(** A call either returns a value or raises. *)
Inductive result (A : Type) : Type :=
| Ok (a : A)
| Raise (e : exn).
Arguments Ok {A} a.
Arguments Raise {A} e.

Definition bind {A B : Type} (m : result A) (k : A -> result B) : result B :=
  match m with
  | Ok a => k a
  | Raise e => Raise e
  end.

(** What a call hands back to its caller: [None] (a function that ends
    without a [return] statement) or an integer. *)
Inductive retval : Type :=
| PyNone
| PyInt (n : Z).

(** The number that [Series.max()] yields: an integer, or [nan] for a
    series without elements.  Every comparison with [nan] is false. *)
Inductive number : Type :=
| Int (n : Z)
| NaN.

Definition num_eqb (x : number) (k : Z) : bool :=
  match x with
  | Int n => n =? k
  | NaN => false
  end.

Definition num_gtb (x : number) (k : Z) : bool :=
  match x with
  | Int n => n >? k
  | NaN => false
  end.

(** [str(n)] for an integer: its decimal digits, with a minus sign. *)
Definition str_of_Z (n : Z) : string := NilZero.string_of_int (Z.to_int n).

(** The text an f-string substitutes for [{x}]. *)
Definition format_number (x : number) : string :=
  match x with
  | Int n => str_of_Z n
  | NaN => "nan"
  end.

(** [str.lower()] on a character: the letters A to Z move to a to z,
    every other character of the labels modelled here stays. *)
Definition lower_ascii (c : ascii) : ascii :=
  let n := nat_of_ascii c in
  if (Nat.leb 65 n && Nat.leb n 90)%bool then ascii_of_nat (n + 32) else c.

Fixpoint lower (s : string) : string :=
  match s with
  | EmptyString => EmptyString
  | String c s' => String (lower_ascii c) (lower s')
  end.

(** [sub in s]: [sub] starts at some position of [s]. *)
Fixpoint contains (sub s : string) : bool :=
  (String.prefix sub s ||
   match s with
   | EmptyString => false
   | String _ s' => contains sub s'
   end)%bool.

(** [len(s)] *)
Definition len (s : string) : Z := Z.of_nat (String.length s).

(** The line feed of [",\n"]. *)
Definition nl : string := String (ascii_of_nat 10) EmptyString.

(** Running a function that may raise over a list, left to right, as a
    list comprehension does: the first exception ends it. *)
Fixpoint mapM {A B : Type} (f : A -> result B) (l : list A) : result (list B) :=
  match l with
  | [] => Ok []
  | a :: l' =>
      bind (f a) (fun b => bind (mapM f l') (fun bs => Ok (b :: bs)))
  end.

End Py.
Export Py.

(** ** The pandas data frame, as far as [create_query] reads it *)

Module Pandas.

(** A cell of a frame.  A float carries the text [str()] gives for it
    ([VFloat "nan"] is the missing number), and so does a value of any
    other kind (a timestamp, an object id): the code reads cells only
    through [astype(str)]. *)
Inductive value : Type :=
| VInt (n : Z)
| VFloat (repr : string)
| VStr (s : string)
| VBool (b : bool)
| VNone
| VOther (repr : string).

(** [str(v)] *)
Definition str (v : value) : string :=
  match v with
  | VInt n => str_of_Z n
  | VFloat r => r
  | VStr s => s
  | VBool true => "True"
  | VBool false => "False"
  | VNone => "None"
  | VOther r => r
  end.

(** A column: its label, the name of its dtype ([str(dtype)], such as
    int64, float64, object, bool, datetime64[ns]) and its cells. *)
Record Series : Type := mkSeries {
  name : string;
  dtype : string;
  values : list value
}.

(** A frame: the number of rows and the columns, in column order.  In a
    frame every column has [nrows] cells. *)
Record DataFrame : Type := mkDataFrame {
  nrows : nat;
  columns : list Series
}.

(** [df.dtypes.items()] *)
Definition dtypes (df : DataFrame) : list (string * string) :=
  map (fun c => (name c, dtype c)) (columns df).

(** [df[field]]: the columns labelled [field].  One column is a Series;
    several columns of the same label are a DataFrame. *)
Definition getitem (df : DataFrame) (field : string) : list Series :=
  filter (fun c => String.eqb (name c) field) (columns df).

(** [s.astype(str)] *)
Definition astype_str (c : Series) : list string := map str (values c).

(** [s.str.len()] *)
Definition str_len (l : list string) : list Z := map len l.

(** [s.max()] *)
Definition series_max (l : list Z) : number :=
  match l with
  | [] => NaN
  | x :: l' => Int (fold_left Z.max l' x)
  end.

(** [list(df.itertuples(index=False, name=None))]: one tuple a row. *)
Definition itertuples (df : DataFrame) : list (list value) :=
  map (fun i => map (fun c => nth i (values c) VNone) (columns df))
      (seq 0 (nrows df)).

End Pandas.
Export Pandas.

(** ** The methods of [DataWarehouse] *)

Module DataWarehouse.

(** The value of [length] when line 283 formats it: 100 in place of 0,
    10000 in place of anything above [int(10e3)]. *)
Definition varchar_length (length : number) : number :=
  if num_eqb length 0 then Int 100
  else if num_gtb length 10000 then Int 10000
  else length.

(** [get_mysql_field(type, length)] *)
Definition get_mysql_field (type : string) (length : number) : result string :=
  let type := lower type in
  if contains "int" type then Ok "INT"
  else if contains "float" type then Ok "DOUBLE"
  else if contains "object" type then
    Ok ("VARCHAR(" ++ format_number (varchar_length length) ++ ")")
  else if contains "datetime" type then Ok "DATETIME"
  else if contains "date" type then Ok "DATE"
  else if contains "bool" type then Ok "BOOL"
  else Raise (ValueError ("Unknown type '" ++ type ++ "'")).

(** [df[field].astype(str).str.len().max()], the argument [length] of
    line 316.  A frame with two columns of one label has no [.str]. *)
Definition max_str_len (df : DataFrame) (field : string) : result number :=
  match getitem df field with
  | [c] => Ok (series_max (str_len (astype_str c)))
  | _ => Raise (AttributeError "'DataFrame' object has no attribute 'str'")
  end.

(** One element of the list of lines 313 to 318. *)
Definition column_entry (df : DataFrame) (ft : string * string) : result string :=
  let (field, type) := ft in
  bind (max_str_len df field) (fun length =>
  bind (get_mysql_field type length) (fun ty =>
  Ok (field ++ " " ++ ty))).

(** [create_query(df, table_name)] *)
Definition create_query (df : DataFrame) (table_name : string) : result string :=
  bind (mapM (column_entry df) (dtypes df)) (fun entries =>
  let types := String.concat ("," ++ nl) entries in
  Ok ("CREATE TABLE IF NOT EXISTS " ++ table_name ++ " (" ++ types ++ ");")).

(** *** The loader *)

(** A namespace: the names bound, each with the text [str()] gives for
    its value. *)
Definition namespace : Type := list (string * string).

Fixpoint lookup (ns : namespace) (x : string) : option string :=
  match ns with
  | [] => None
  | (y, v) :: ns' => if String.eqb y x then Some v else lookup ns' x
  end.

(** Reading a name that the function body never assigns: it is looked
    up in the module's globals (followed by the builtins), and a name
    bound in neither raises [NameError]. *)
Definition load_global (globals : namespace) (x : string) : result string :=
  match lookup globals x with
  | Some v => Ok v
  | None => Raise (NameError ("name '" ++ x ++ "' is not defined"))
  end.

(** The names main.py binds at its top level.  The builtins bind none of
    [table_name], [columns] and [values]. *)
Definition module_globals : namespace :=
  [ ("DataLake", "<class 'main.DataLake'>");
    ("DataWarehouse", "<class 'main.DataWarehouse'>");
    ("pipeline", "<function pipeline>") ].

(** The f-string of lines 335 to 340.  It is evaluated when the
    assignment runs, its three fields from left to right. *)
Definition insert_query (globals : namespace) : result string :=
  bind (load_global globals "table_name") (fun table_name =>
  bind (load_global globals "columns") (fun cols =>
  bind (load_global globals "values") (fun vals =>
  Ok (nl ++ "            INSERT INTO " ++ table_name ++ " (" ++ cols ++ ")"
      ++ nl ++ "            VALUES (" ++ vals ++ ")"
      ++ nl ++ "            ON DUPLICATE KEY UPDATE "
      ++ nl ++ "            disbursement_uid=disbursement_uid;"
      ++ nl ++ "        ")))).

(** A computation on the sink: it returns or raises, and leaves the
    sink in a new state either way. *)
Definition prog (S A : Type) : Type := S -> result A * S.

Definition ret {S A : Type} (a : A) : prog S A := fun s => (Ok a, s).

Definition lift {S A : Type} (r : result A) : prog S A := fun s => (r, s).

Definition seq_prog {S A B : Type} (m : prog S A) (k : A -> prog S B) : prog S B :=
  fun s =>
    match m s with
    | (Ok a, s') => k a s'
    | (Raise e, s') => (Raise e, s')
    end.

(** [with ... : body], after the manager is entered.  When [body]
    returns, [__exit__] is called without an exception and what it
    returns is dropped.  When [body] raises, [__exit__] is called with
    the exception: a true result swallows it and the statement ends
    normally, a false one lets it go on to the caller.  An exception
    raised by [__exit__] itself goes to the caller in both cases. *)
Definition with_exit {S A : Type} (body : prog S A)
  (on_exit : option exn -> prog S bool) : prog S unit :=
  fun s =>
    match body s with
    | (Ok _, s') =>
        match on_exit None s' with
        | (Ok _, s'') => (Ok tt, s'')
        | (Raise e', s'') => (Raise e', s'')
        end
    | (Raise e, s') =>
        match on_exit (Some e) s' with
        | (Ok true, s'') => (Ok tt, s'')
        | (Ok false, s'') => (Raise e, s'')
        | (Raise e', s'') => (Raise e', s'')
        end
    end.

Notation "x <- m ;; k" := (seq_prog m (fun x => k))
  (at level 61, m at next level, right associativity).

(** The object passed as [conncursor], with the four things the loader
    asks of it, over the state [S] of the database behind it:
    [__enter__], the [executemany] of the cursor it hands out,
    [__exit__] with the exception of the block if there is one, and
    [commit]. *)
Record Connection (S : Type) : Type := mkConnection {
  cm_enter : prog S unit;
  executemany : string -> list (list value) -> prog S unit;
  cm_exit : option exn -> prog S bool;
  commit : prog S unit
}.
Arguments cm_enter {S} _.
Arguments executemany {S} _ _ _.
Arguments cm_exit {S} _.
Arguments commit {S} _.

Section Load.

Context {S : Type}.

(** The database driver behind [conncursor]. *)
Variable conn : Connection S.

(** [q.format(table="gps_data")] of line 343. *)
Variable format_table : string -> result string.

(** [load_transformed(conncursor, data)], run with the module
    namespace [globals] on the sink state [s].  The body has no
    [return] statement. *)
Definition load_transformed (globals : namespace) (data : DataFrame)
  : prog S retval :=
  q <- lift (insert_query globals) ;;
  _ <- cm_enter conn ;;
  _ <- with_exit
         (q' <- lift (format_table q) ;;
          executemany conn q' (itertuples data))
         (cm_exit conn) ;;
  _ <- commit conn ;;
  ret PyNone.

End Load.

End DataWarehouse.
Export DataWarehouse.

(** ** Vocabulary of the properties *)

(** The six substrings that [get_mysql_field] looks for, in the order of
    its tests. *)
Definition recognized_substrings : list string :=
  ["int"; "float"; "object"; "datetime"; "date"; "bool"].

(** A dtype label matches when its lower-case form contains one of them. *)
Definition recognized (type : string) : bool :=
  existsb (fun k => contains k (lower type)) recognized_substrings.

(** The tokens by substring, in the order in which [get_mysql_field] tests
    the substrings; the token of a text column depends on the length. *)
Definition precedence : list (string * (number -> string)) :=
  [ ("int", fun _ => "INT");
    ("float", fun _ => "DOUBLE");
    ("object", fun length => "VARCHAR(" ++ format_number (varchar_length length) ++ ")");
    ("datetime", fun _ => "DATETIME");
    ("date", fun _ => "DATE");
    ("bool", fun _ => "BOOL") ].

(** The first row of the table whose substring is in the lower-case label. *)
Definition first_match (type : string) : option (string * (number -> string)) :=
  find (fun row => contains (fst row) (lower type)) precedence.

(** The labels that reach the VARCHAR branch of line 278: neither of the
    two earlier tests holds and the test for object does. *)
Definition string_affinity (type : string) : bool :=
  (negb (contains "int" (lower type)) && negb (contains "float" (lower type))
   && contains "object" (lower type))%bool.

(** The lengths of the serialized cells of a column. *)
Definition cell_lengths (c : Series) : list Z := str_len (astype_str c).

(** The width that line 283 writes for a column of the frame. *)
Definition inferred_width (c : Series) : number :=
  varchar_length (series_max (cell_lengths c)).

(** [m] is the greatest element of [l]. *)
Definition is_max (m : Z) (l : list Z) : Prop :=
  In m l /\ Forall (fun k => k <= m) l.

(** No two columns of the frame carry the same label, as in every frame
    built from a list of records. *)
Definition unique_labels (df : DataFrame) : Prop :=
  NoDup (map name (columns df)).

(** ** Frames and a sink for the examples *)

Module Examples.

(** [[{"id":1,"name":"Ana","amt":12.5},{"id":2,"name":"Bartholomew","amt":7}]]
    as a frame: the integers make an int64 column, the texts an object
    column, and 12.5 with 7 a float64 column whose cells print as 12.5
    and 7.0. *)
Definition people : DataFrame :=
  mkDataFrame 2
    [ mkSeries "id" "int64" [VInt 1; VInt 2];
      mkSeries "name" "object" [VStr "Ana"; VStr "Bartholomew"];
      mkSeries "amt" "float64" [VFloat "12.5"; VFloat "7.0"] ].

(** A frame with a column of complex numbers. *)
Definition with_complex : DataFrame :=
  mkDataFrame 1
    [ mkSeries "id" "int64" [VInt 1];
      mkSeries "z" "complex128" [VOther "(1+2j)"] ].

(** [[{"name": None}, {"name": None}]]: a text column without a single
    value that is not null. *)
Definition nulls_name : Series := mkSeries "name" "object" [VNone; VNone].

Definition only_nulls : DataFrame := mkDataFrame 2 [nulls_name].

(** [[{"f": ""}]] and [[{"f": ""}, {"f": "a"}]]. *)
Definition blank_f : Series := mkSeries "f" "object" [VStr ""].

Definition blank : DataFrame := mkDataFrame 1 [blank_f].

Definition blank_and_a_f : Series := mkSeries "f" "object" [VStr ""; VStr "a"].

Definition blank_and_a : DataFrame := mkDataFrame 2 [blank_and_a_f].

(** [[{"f": "ab"}]] and [[{"f": "ab"}, {"f": "abcd"}]]. *)
Definition short_f : Series := mkSeries "f" "object" [VStr "ab"].

Definition short : DataFrame := mkDataFrame 1 [short_f].

Definition short_and_long_f : Series :=
  mkSeries "f" "object" [VStr "ab"; VStr "abcd"].

Definition short_and_long : DataFrame := mkDataFrame 2 [short_and_long_f].

(** A text of [n] letters x. *)
Fixpoint xs (n : nat) : string :=
  match n with
  | O => EmptyString
  | S n' => String "x"%char (xs n')
  end.

(** [[{"s": "x" * 10001}]] *)
Definition oversized_s : Series :=
  mkSeries "s" "object" [VStr (xs (Z.to_nat 10001))].

Definition oversized : DataFrame := mkDataFrame 1 [oversized_s].

(** A frame with two columns of the integer kind. *)
Definition two_ints : DataFrame :=
  mkDataFrame 1
    [ mkSeries "a" "int64" [VInt 1]; mkSeries "b" "int64" [VInt 2] ].

(** A frame with the label a on two columns, which no list of records
    gives. *)
Definition twice_a : DataFrame :=
  mkDataFrame 1
    [ mkSeries "a" "int64" [VInt 1]; mkSeries "a" "object" [VStr "u"] ].

(** A stand-in for the MySQL connection: the table is the list of its
    rows, the first field of a row is its unique key, and a row whose
    key is already in the table is left out (ON DUPLICATE KEY UPDATE
    k=k changes nothing). *)
Definition table : Type := list (list value).

Definition key (row : list value) : string :=
  match row with
  | [] => ""
  | v :: _ => str v
  end.

Definition upsert (t : table) (row : list value) : table :=
  if existsb (fun r => String.eqb (key r) (key row)) t then t else (t ++ [row])%list.

Definition fake_mysql : Connection table :=
  mkConnection table
    (ret tt)
    (fun _ rows t => (Ok tt, fold_left upsert rows t))
    (fun _ t => (Ok false, t))
    (ret tt).

(** [str.format] on a text without braces gives the text back; a text
    with braces is outside this stand-in. *)
Definition format_plain (q : string) : result string :=
  if (contains "{" q || contains "}" q)%bool
  then Raise (ValueError "format fields are not modelled")
  else Ok q.

(** The module namespace after a caller has bound the three names the
    f-string reads. *)
Definition bound_globals : namespace :=
  ("table_name", "gps_data") :: ("columns", "disbursement_uid, amount")
  :: ("values", "%s, %s") :: module_globals.

Definition payments : DataFrame :=
  mkDataFrame 2
    [ mkSeries "disbursement_uid" "object" [VStr "u1"; VStr "u2"];
      mkSeries "amount" "int64" [VInt 10; VInt 20] ].

End Examples.

(** ** Creating the table *)

Module Creation.

(** The cursor handed to [create_db_mysql], with the one method the code
    calls on it, over the state [S] of the database behind it. *)
Record Cursor (S : Type) : Type := mkCursor {
  cursor_execute : string -> prog S unit
}.
Arguments cursor_execute {S} _ _.

(** [create_db_mysql(cursor, data, name)], lines 254 and 255: the
    statement is built first and then executed; nothing is returned. *)
Definition create_db_mysql {S : Type} (cursor : Cursor S) (data : DataFrame)
  (name : string) : prog S retval :=
  creation_query <- lift (create_query data name) ;;
  _ <- cursor_execute cursor creation_query ;;
  ret PyNone.

End Creation.
Export Creation.

(** ** The run of the warehouse *)

Module Driver.

(** How a call ends: it returns, it raises an exception of the methods or
    of a library, or it is refused with the [TypeError] of a call that
    leaves required positional arguments out, before the body of the
    called function is entered. *)
Inductive outcome (A : Type) : Type :=
| Returned (a : A)
| Raised (e : exn)
| MissingArguments (fn : string) (missing : list string).
Arguments Returned {A} a.
Arguments Raised {A} e.
Arguments MissingArguments {A} fn missing.

Definition task (W A : Type) : Type := W -> outcome A * W.

Definition done {W A : Type} (a : A) : task W A := fun w => (Returned a, w).

Definition of_prog {W A : Type} (m : prog W A) : task W A :=
  fun w =>
    match m w with
    | (Ok a, w') => (Returned a, w')
    | (Raise e, w') => (Raised e, w')
    end.

Definition and_then {W A B : Type} (m : task W A) (k : A -> task W B) : task W B :=
  fun w =>
    match m w with
    | (Returned a, w') => k a w'
    | (Raised e, w') => (Raised e, w')
    | (MissingArguments fn missing, w') => (MissingArguments fn missing, w')
    end.

Notation "x <~ m ;; k" := (and_then m (fun x => k))
  (at level 61, m at next level, right associativity).

(** The names of the parameters that got no argument. *)
Definition unfilled {A : Type} (p : string) (a : option A) : list string :=
  match a with
  | Some _ => []
  | None => [p]
  end.

(** A call of a method with three parameters after [self]: the body runs
    when each has its argument, and the call is refused otherwise. *)
Definition call3 {W A B C R : Type} (fn p1 p2 p3 : string)
  (a1 : option A) (a2 : option B) (a3 : option C)
  (body : A -> B -> C -> task W R) : task W R :=
  match a1, a2, a3 with
  | Some a, Some b, Some c => body a b c
  | _, _, _ =>
      fun w => (MissingArguments fn
                  (unfilled p1 a1 ++ unfilled p2 a2 ++ unfilled p3 a3)%list, w)
  end.

(** The libraries the run calls, over the state [W] of the world outside
    the program and the objects [obj] they hand back.  Each may raise. *)
Record Libraries (W obj : Type) : Type := mkLibraries {
  (** an [import] statement *)
  import_module : string -> prog W unit;
  (** [MongoClient()] *)
  MongoClient : prog W obj;
  (** [x.name] *)
  attr_name : obj -> prog W obj;
  (** [database[collection]] *)
  getitem_obj : obj -> obj -> prog W obj;
  (** the items that iterating [x.find(filters)] yields *)
  mongo_find : obj -> list (string * value) -> prog W (list obj);
  (** [pd.DataFrame(items)] *)
  pd_DataFrame : list obj -> prog W DataFrame;
  (** [mysql.connector.connect(host=..., user=..., password=...)] *)
  mysql_connect : string -> string -> string -> prog W obj;
  (** [connection.cursor()] *)
  connection_cursor : obj -> prog W obj;
  (** the [execute] method of an object *)
  cursor_of : obj -> Cursor W;
  (** the methods [load_transformed] calls on an object *)
  connection_of : obj -> Connection W;
  (** [q.format(table="gps_data")] *)
  str_format : string -> result string
}.
Arguments import_module {W obj} _ _.
Arguments MongoClient {W obj} _.
Arguments attr_name {W obj} _ _.
Arguments getitem_obj {W obj} _ _ _.
Arguments mongo_find {W obj} _ _ _.
Arguments pd_DataFrame {W obj} _ _.
Arguments mysql_connect {W obj} _ _ _ _.
Arguments connection_cursor {W obj} _ _.
Arguments cursor_of {W obj} _ _.
Arguments connection_of {W obj} _ _.
Arguments str_format {W obj} _ _.

(** The same libraries with other methods behind the cursor objects and
    another [str.format]. *)
Definition with_cursor_methods {W obj : Type} (lib : Libraries W obj)
  (cur : obj -> Cursor W) (con : obj -> Connection W)
  (fmt : string -> result string) : Libraries W obj :=
  mkLibraries W obj
    (import_module lib) (MongoClient lib) (attr_name lib) (getitem_obj lib)
    (mongo_find lib) (pd_DataFrame lib) (mysql_connect lib) (connection_cursor lib)
    cur con fmt.

Section Run.

Context {W obj : Type}.
Variable lib : Libraries W obj.

(** [connect_to_datalake()], lines 84 to 86. *)
Definition connect_to_datalake : prog W obj :=
  _ <- import_module lib "pymongo" ;;
  MongoClient lib.

(** [create_db(name, conn)], line 104: [db = conn.name]. *)
Definition create_db (name : string) (conn : obj) : prog W obj :=
  attr_name lib conn.

(** [create_collection(name, db)], line 123: [collection = db.name]. *)
Definition create_collection (name : string) (db : obj) : prog W obj :=
  attr_name lib db.

(** [initial_config_mongo()], lines 151 to 154. *)
Definition initial_config_mongo : prog W (obj * obj) :=
  conn <- connect_to_datalake ;;
  db <- create_db "gps" conn ;;
  collection <- create_collection "raw" db ;;
  ret (collection, db).

(** [from_mongo(database, collection, filters)], lines 213 to 216. *)
Definition from_mongo (database collection : obj)
  (filters : list (string * value)) : prog W (list obj) :=
  c <- getitem_obj lib database collection ;;
  mongo_find lib c filters.

(** [read_from_db(database, collection, filters)], lines 211 to 218:
    [from_mongo] is called without [filters], with its default [{}]. *)
Definition read_from_db (database collection : obj)
  (filters : list (string * value)) : prog W DataFrame :=
  _ <- import_module lib "pandas" ;;
  items <- from_mongo database collection [] ;;
  pd_DataFrame lib items.

(** [connect_to_mysql()], lines 229 to 238. *)
Definition connect_to_mysql : prog W obj :=
  _ <- import_module lib "mysql" ;;
  connection <- mysql_connect lib "localhost" "root" "root" ;;
  connection_cursor lib connection.

(** [DataWarehouse.execute()], lines 361 to 365.  Line 364 calls
    [create_db_mysql] with no argument. *)
Definition execute : task W retval :=
  p <~ of_prog initial_config_mongo ;;
  data <~ of_prog (read_from_db (snd p) (fst p) []) ;;
  cursor <~ of_prog connect_to_mysql ;;
  _ <~ call3 "create_db_mysql" "cursor" "data" "name"
         (@None obj) (@None DataFrame) (@None string)
         (fun c d n => of_prog (create_db_mysql (cursor_of lib c) d n)) ;;
  _ <~ of_prog (load_transformed (connection_of lib cursor) (str_format lib)
                  module_globals data) ;;
  done PyNone.

End Run.

End Driver.
Export Driver.

(** ** The run of the lake and the pipeline *)

Module Lake.

(** An instance of [DataLake] (or of its child [DataWarehouse]): the two
    attributes that [__init__] sets, lines 33 and 34. *)
Record DataLake : Type := mkDataLake {
  _ak : string;
  _sak : string
}.

(** The calls into boto3, json and pymongo that the lake makes, and the
    two steps of a [for] statement, over the state [W] of the world and
    the objects [obj] handed back.  Each may raise. *)
Record Storage (W obj : Type) : Type := mkStorage {
  (** [boto3.Session(aws_access_key_id=..., aws_secret_access_key=...)] *)
  boto3_Session : string -> string -> prog W obj;
  (** [session.resource(name)] *)
  session_resource : obj -> string -> prog W obj;
  (** [s3.Bucket(name)] *)
  s3_Bucket : obj -> string -> prog W obj;
  (** [bucket.objects.filter(Prefix=...)] *)
  objects_filter : obj -> string -> prog W obj;
  (** [iter(x)], at the start of a [for] statement *)
  py_iter : obj -> prog W obj;
  (** [next(it)]: the next item, or nothing when the iterator stops *)
  py_next : obj -> prog W (option obj);
  (** [json.load(x)] *)
  json_load : obj -> prog W obj;
  (** [collection.insert_one(data)] *)
  insert_one : obj -> obj -> prog W unit
}.
Arguments boto3_Session {W obj} _ _ _.
Arguments session_resource {W obj} _ _ _.
Arguments s3_Bucket {W obj} _ _ _.
Arguments objects_filter {W obj} _ _ _.
Arguments py_iter {W obj} _ _.
Arguments py_next {W obj} _ _.
Arguments json_load {W obj} _ _.
Arguments insert_one {W obj} _ _ _.

Section LakeRun.

Context {W obj : Type}.
Variable lib : Libraries W obj.
Variable st : Storage W obj.

(** [connect_to_s3()], lines 45 to 55. *)
Definition connect_to_s3 (self : DataLake) : prog W obj :=
  _ <- import_module lib "boto3" ;;
  session <- boto3_Session st (_ak self) (_sak self) ;;
  s3 <- session_resource st session "s3" ;;
  s3_Bucket st s3 "de-tech-assessment-2022".

(** [extract_json(object)], lines 71 to 73. *)
Definition extract_json (object : obj) : prog W obj :=
  _ <- import_module lib "json" ;;
  json_load st object.

(** [insert_data(collection, data)], line 138. *)
Definition insert_data (collection data : obj) : prog W retval :=
  _ <- insert_one st collection data ;;
  ret PyNone.

(** The body of the loop, lines 164 and 165. *)
Definition load_object (collection objects : obj) : prog W retval :=
  data <- extract_json objects ;;
  insert_data collection data.

(** A [for] statement over the iterator [it], for at most [fuel] rounds:
    [Some tt] when the iterator has stopped, [None] when the rounds are
    used up with the loop still going. *)
Fixpoint for_each (fuel : nat) (it : obj) (body : obj -> prog W retval)
  : prog W (option unit) :=
  match fuel with
  | O => ret None
  | S fuel' =>
      x <- py_next st it ;;
      match x with
      | None => ret (Some tt)
      | Some o => _ <- body o ;; for_each fuel' it body
      end
  end.

(** The steps of [execute] before the loop, lines 160 to 163: the
    collection to insert into and the iterator over the listing. *)
Definition set_up (self : DataLake) : prog W (obj * obj) :=
  bucket <- connect_to_s3 self ;;
  p <- initial_config_mongo lib ;;
  listing <- objects_filter st bucket "data/" ;;
  it <- py_iter st listing ;;
  ret (fst p, it).

(** [DataLake.execute()], lines 160 to 165; [None] when the loop is
    still going after [fuel] rounds. *)
Definition execute (fuel : nat) (self : DataLake) : prog W (option retval) :=
  ci <- set_up self ;;
  r <- for_each fuel (snd ci) (load_object (fst ci)) ;;
  ret (match r with
       | Some _ => Some PyNone
       | None => None
       end).

(** [pipeline(access_key, secret_access_key)], lines 369 to 380. *)
Definition pipeline (fuel : nat) (access_key secret_access_key : string)
  : task W (option retval) :=
  let gps_datalake := mkDataLake "access key" "secret access key" in
  let gps_data_warehouse := mkDataLake "access key" "secret access key" in
  r <~ of_prog (execute fuel gps_datalake) ;;
  match r with
  | None => done None
  | Some _ => _ <~ Driver.execute lib ;; done (Some PyNone)
  end.

(** The loop body goes through the objects [l] that the iterator hands
    out one after the other, each loaded and inserted without an
    exception, and takes the world from [w] to [w']. *)
Inductive loads (collection it : obj) : W -> list obj -> W -> Prop :=
| loads_nil (w : W) : loads collection it w [] w
| loads_cons (w w1 w2 w' : W) (o : obj) (l : list obj) :
    py_next st it w = (Ok (Some o), w1) ->
    load_object collection o w1 = (Ok PyNone, w2) ->
    loads collection it w2 l w' ->
    loads collection it w (o :: l) w'.

End LakeRun.

End Lake.

(** ** Vocabulary of the further properties *)

(** Two columns that the inference cannot tell apart: the same label, the
    same dtype up to case and, for a text column, the same cells up to
    their order and number of occurrences. *)
Definition same_inference_input (c1 c2 : Series) : Prop :=
  name c1 = name c2 /\
  lower (dtype c1) = lower (dtype c2) /\
  (string_affinity (dtype c1) = true ->
   incl (values c1) (values c2) /\ incl (values c2) (values c1)).



(** The names that the f-string of [load_transformed] reads, in the order
    in which it reads them. *)
Definition query_names : list string := ["table_name"; "columns"; "values"].

Definition unbound (globals : namespace) (x : string) : bool :=
  match lookup globals x with
  | Some _ => false
  | None => true
  end.

(** The first of them that the namespace does not bind. *)
Definition first_unbound (globals : namespace) : option string :=
  find (unbound globals) query_names.

(** The five tokens without a width. *)
Definition plain_tokens : list string :=
  ["INT"; "DOUBLE"; "DATETIME"; "DATE"; "BOOL"].

(** ** Further frames and stand-ins for the examples *)

Module MoreExamples.

(** The frame of [Examples.people] with its two records in the other
    order and the dtype names in capitals. *)
Definition people_reordered : DataFrame :=
  mkDataFrame 2
    [ mkSeries "id" "INT64" [VInt 2; VInt 1];
      mkSeries "name" "Object" [VStr "Bartholomew"; VStr "Ana"];
      mkSeries "amt" "Float64" [VFloat "7.0"; VFloat "12.5"] ].

(** A frame with a text column and no row. *)
Definition no_rows_f : Series := mkSeries "f" "object" [].

Definition no_rows : DataFrame := mkDataFrame 0 [no_rows_f].

(** The frame of an empty list of records: no column, no row. *)
Definition no_columns : DataFrame := mkDataFrame 0 [].

(** A namespace that binds [table_name] and not [columns]. *)
Definition half_bound_globals : namespace :=
  ("table_name", "gps_data") :: module_globals.

(** A journal of calls, the latest last. *)
Definition note (j : list string) (call : string) : list string :=
  (j ++ [call])%list.

(** A connection that keeps a journal of the calls it receives and whose
    [executemany] raises; its [__exit__] returns a false value. *)
Definition refusing_mysql : Connection (list string) :=
  mkConnection (list string)
    (fun j => (Ok tt, note j "enter"))
    (fun _ _ j => (Raise (SinkError "refused"), note j "executemany"))
    (fun _ j => (Ok false, note j "exit"))
    (fun j => (Ok tt, note j "commit")).

(** The same connection with an [__exit__] that returns a true value. *)
Definition swallowing_mysql : Connection (list string) :=
  mkConnection (list string)
    (fun j => (Ok tt, note j "enter"))
    (fun _ _ j => (Raise (SinkError "refused"), note j "executemany"))
    (fun _ j => (Ok true, note j "exit"))
    (fun j => (Ok tt, note j "commit")).


(** A cursor that keeps the statements it is asked to execute. *)
Definition recording_cursor : Cursor (list string) :=
  mkCursor (list string) (fun q j => (Ok tt, note j q)).

(** Libraries whose calls all return, over a journal of the calls. *)
Definition obliging : Libraries (list string) string :=
  mkLibraries (list string) string
    (fun m j => (Ok tt, note j ("import " ++ m)))
    (fun j => (Ok "client", note j "MongoClient()"))
    (fun o j => (Ok (o ++ ".name"), note j (o ++ ".name")))
    (fun d c j => (Ok (d ++ "[" ++ c ++ "]"), j))
    (fun c _ j => (Ok [], note j (c ++ ".find")))
    (fun _ j => (Ok no_columns, note j "DataFrame"))
    (fun h u _ j => (Ok "connection", note j ("connect " ++ u ++ "@" ++ h)))
    (fun c j => (Ok (c ++ ".cursor()"), note j (c ++ ".cursor()")))
    (fun _ => recording_cursor)
    (fun _ => refusing_mysql)
    Examples.format_plain.

(** A world for the lake: the keys still to be listed and the documents
    inserted so far. *)
Definition shelf : Type := (list string * list string)%type.

(** A storage over it: the iterator hands out the keys in turn, the key
    bad does not load, and an insert adds the document at the end. *)
Definition toy_storage : Lake.Storage shelf string :=
  Lake.mkStorage shelf string
    (fun _ _ w => (Ok "session", w))
    (fun _ _ w => (Ok "s3", w))
    (fun _ b w => (Ok b, w))
    (fun b _ w => (Ok (b ++ ".objects"), w))
    (fun l w => (Ok (l ++ ".iter"), w))
    (fun _ w =>
       match fst w with
       | [] => (Ok None, w)
       | k :: ks => (Ok (Some k), (ks, snd w))
       end)
    (fun k w =>
       if String.eqb k "bad" then (Raise (ValueError "no JSON"), w)
       else (Ok ("doc " ++ k), w))
    (fun _ d w => (Ok tt, (fst w, note (snd w) d))).

(** Libraries over the same world whose calls all return. *)
Definition toy_libraries : Libraries shelf string :=
  mkLibraries shelf string
    (fun _ w => (Ok tt, w))
    (fun w => (Ok "client", w))
    (fun o w => (Ok (o ++ ".name"), w))
    (fun d c w => (Ok (d ++ "[" ++ c ++ "]"), w))
    (fun _ _ w => (Ok [], w))
    (fun _ w => (Ok no_columns, w))
    (fun _ _ _ w => (Ok "connection", w))
    (fun c w => (Ok (c ++ ".cursor()"), w))
    (fun _ => mkCursor shelf (fun _ w => (Ok tt, w)))
    (fun _ => mkConnection shelf
                (fun w => (Ok tt, w)) (fun _ _ w => (Ok tt, w))
                (fun _ w => (Ok false, w)) (fun w => (Ok tt, w)))
    Examples.format_plain.

Definition lake : Lake.DataLake := Lake.mkDataLake "k" "s".

End MoreExamples.

(** ** The definitions at work *)

Example str_of_Z_examples :
  str_of_Z 0 = "0" /\ str_of_Z 100 = "100" /\ str_of_Z (-12) = "-12".
Proof. repeat split; reflexivity. Qed.

Example lower_example : lower "Int64[NS]" = "int64[ns]".
Proof. reflexivity. Qed.

Example get_mysql_field_examples :
  get_mysql_field "int64" (Int 3) = Ok "INT" /\
  get_mysql_field "object" (Int 0) = Ok "VARCHAR(100)" /\
  get_mysql_field "object" (Int 11) = Ok "VARCHAR(11)" /\
  get_mysql_field "object" (Int 10001) = Ok "VARCHAR(10000)" /\
  get_mysql_field "object" NaN = Ok "VARCHAR(nan)" /\
  get_mysql_field "datetime64[ns]" (Int 19) = Ok "DATETIME" /\
  get_mysql_field "complex128" (Int 5) = Raise (ValueError "Unknown type 'complex128'") /\
  get_mysql_field "string" (Int 5) = Raise (ValueError "Unknown type 'string'").
Proof. repeat split; reflexivity. Qed.

Example create_query_repeated_label :
  create_query Examples.twice_a "t"
  = Raise (AttributeError "'DataFrame' object has no attribute 'str'").
Proof. reflexivity. Qed.

Example itertuples_payments :
  itertuples Examples.payments
  = [[VStr "u1"; VInt 10]; [VStr "u2"; VInt 20]].
Proof. reflexivity. Qed.

Example load_with_bound_names :
  load_transformed Examples.fake_mysql Examples.format_plain
    Examples.bound_globals Examples.payments []
  = (Ok PyNone, [[VStr "u1"; VInt 10]; [VStr "u2"; VInt 20]]).
Proof. reflexivity. Qed.

Example load_as_written :
  load_transformed Examples.fake_mysql Examples.format_plain
    module_globals Examples.payments []
  = (Raise (NameError "name 'table_name' is not defined"), []).
Proof. reflexivity. Qed.

(** ** Strings: substring test and lower case *)

Section StringFacts.

Lemma prefix_app (sub s : string) :
  String.prefix sub s = true <-> exists post, s = sub ++ post.
Proof.
  revert s; induction sub as [|a sub IH]; intros s.
  - split; [intros _; exists s; reflexivity | intros _; destruct s; reflexivity].
  - destruct s as [|b s]; simpl.
    + split; [discriminate | intros [post H]; discriminate].
    + destruct (Ascii.ascii_dec a b) as [->|Hab].
      * rewrite IH. split; intros [post H]; exists post.
        -- now rewrite H.
        -- now inversion H.
      * split; [discriminate | intros [post H]; inversion H; congruence].
Qed.

Lemma contains_nil (sub : string) :
  contains sub "" = String.prefix sub "".
Proof. simpl. apply orb_false_r. Qed.

Lemma contains_cons (sub : string) (a : ascii) (s : string) :
  contains sub (String a s)
  = (String.prefix sub (String a s) || contains sub s)%bool.
Proof. reflexivity. Qed.

(** [contains] is the substring test: [sub in s] holds exactly when [s]
    is some text, then [sub], then some text. *)
Lemma contains_spec (sub s : string) :
  contains sub s = true <-> exists pre post, s = pre ++ sub ++ post.
Proof.
  induction s as [|a s IH].
  - rewrite contains_nil, prefix_app. split.
    + intros [post H]. exists "", post. exact H.
    + intros [pre [post H]]. destruct pre; simpl in H.
      * now exists post.
      * discriminate.
  - rewrite contains_cons, orb_true_iff, prefix_app, IH. split.
    + intros [[post H] | [pre [post H]]].
      * exists "", post. exact H.
      * exists (String a pre), post. simpl. now rewrite H.
    + intros [pre [post H]]. destruct pre as [|b pre]; simpl in H.
      * left. now exists post.
      * right. inversion H. now exists pre, post.
Qed.

Lemma lower_ascii_idem (c : ascii) : lower_ascii (lower_ascii c) = lower_ascii c.
Proof.
  destruct c as [[] [] [] [] [] [] [] []]; reflexivity.
Qed.

Lemma lower_idem (s : string) : lower (lower s) = lower s.
Proof.
  induction s as [|c s IH]; simpl; [reflexivity|].
  now rewrite lower_ascii_idem, IH.
Qed.

Lemma lower_app (s t : string) : lower (s ++ t) = lower s ++ lower t.
Proof.
  induction s as [|c s IH]; simpl; [reflexivity | now rewrite IH].
Qed.

(** A lower-case text found in a label is found in its lower-case form. *)
Lemma contains_lower (k s : string) :
  lower k = k -> contains k s = true -> contains k (lower s) = true.
Proof.
  intros Hk H. apply contains_spec in H as [pre [post ->]].
  apply contains_spec. exists (lower pre), (lower post).
  now rewrite !lower_app, Hk.
Qed.

End StringFacts.

(** ** The type mapping *)

(** [get_mysql_field] walks the table from the top: the first substring
    found in the lower-case label gives the token, and a label with none
    of them raises [ValueError] with the lower-case label in its text. *)
Lemma get_mysql_field_first_match (type : string) (length : number) :
  get_mysql_field type length =
  match first_match type with
  | Some (_, token) => Ok (token length)
  | None => Raise (ValueError ("Unknown type '" ++ lower type ++ "'"))
  end.
Proof.
  unfold get_mysql_field, first_match, precedence; simpl.
  repeat (match goal with
          | |- context [contains ?k (lower type)] =>
              destruct (contains k (lower type)); try reflexivity
          end).
Qed.

Lemma recognized_first_match (type : string) :
  recognized type = true <-> exists row, first_match type = Some row.
Proof.
  unfold recognized, first_match, recognized_substrings, precedence; simpl.
  repeat (match goal with
          | |- context [contains ?k (lower type)] =>
              destruct (contains k (lower type)); simpl
          end);
    (split; [intros H; try discriminate; eexists; reflexivity
            | intros [row H]; try discriminate; reflexivity]).
Qed.

(** A label that matches gets a token, whatever the length. *)
Lemma recognized_label_has_token (type : string) (length : number) :
  recognized type = true -> exists token, get_mysql_field type length = Ok token.
Proof.
  intros Hrec. apply recognized_first_match in Hrec as [[k token] Hfm].
  exists (token length). now rewrite get_mysql_field_first_match, Hfm.
Qed.

(** C10: the mapping does not see the case of the label: a label and its
    lower-case form give the same result for every length, token or
    exception alike; the label Int64 gives INT. *)
Theorem get_mysql_field_case_insensitive :
  (forall (type : string) (length : number),
      get_mysql_field type length = get_mysql_field (lower type) length)
  /\ get_mysql_field "Int64" (Int 0) = Ok "INT".
Proof.
  split; [|reflexivity].
  intros type length. unfold get_mysql_field. now rewrite lower_idem.
Qed.

(** C1, as the code has it: a label whose lower-case form contains one of
    int, float, object, datetime, date, bool is mapped to the token of the
    first of them in that order, for every length, and no exception is
    raised; a label that contains one of them as written contains it in
    lower case too. *)
Theorem get_mysql_field_total_on_recognized (type : string) (length : number) :
  (recognized type = true \/
   exists k, In k recognized_substrings /\ contains k type = true) ->
  exists k token,
    first_match type = Some (k, token) /\
    contains k (lower type) = true /\
    get_mysql_field type length = Ok (token length).
Proof.
  intros H.
  assert (Hrec : recognized type = true).
  { destruct H as [H | [k [Hin Hk]]]; [exact H|].
    unfold recognized. apply existsb_exists. exists k. split; [exact Hin|].
    apply contains_lower; [|exact Hk].
    simpl in Hin. repeat (destruct Hin as [<- | Hin]; [reflexivity|]).
    contradiction. }
  apply recognized_first_match in Hrec as [[k token] Hfm].
  exists k, token. split; [exact Hfm|]. split.
  - unfold first_match in Hfm. apply find_some in Hfm. exact (proj2 Hfm).
  - now rewrite get_mysql_field_first_match, Hfm.
Qed.

Lemma get_mysql_field_total_on_recognized_witness :
  exists k token,
    first_match "datetime64[ns]" = Some (k, token) /\
    contains k (lower "datetime64[ns]") = true /\
    get_mysql_field "datetime64[ns]" (Int 19) = Ok (token (Int 19)).
Proof.
  apply (get_mysql_field_total_on_recognized "datetime64[ns]" (Int 19)).
  left. reflexivity.
Defined.

(** C1, as the spec words it, fails: the label string contains the
    substring string, and the mapping raises. *)
Lemma get_mysql_field_string_label_raises :
  contains "string" "string" = true /\
  get_mysql_field "string" (Int 6) = Raise (ValueError "Unknown type 'string'").
Proof. split; reflexivity. Qed.

(** ** Reading a column of a frame *)

Section FrameFacts.

Lemma filter_unique_label (l : list Series) (c : Series) :
  NoDup (map name l) -> In c l ->
  filter (fun c' => String.eqb (name c') (name c)) l = [c].
Proof.
  induction l as [|d l IH]; intros Hnd Hin; [contradiction|].
  simpl in Hnd. inversion Hnd as [|? ? Hnotin Hnd']; subst.
  assert (Hnone : forall l', ~ In (name c) (map name l') ->
             filter (fun c' => String.eqb (name c') (name c)) l' = []).
  { induction l' as [|e l' IHl']; intros Hn; [reflexivity|].
    simpl. destruct (String.eqb_spec (name e) (name c)) as [Heq|Hne].
    - exfalso. apply Hn. left. exact Heq.
    - apply IHl'. intros Hin'. apply Hn. right. exact Hin'. }
  destruct Hin as [-> | Hin]; simpl.
  - rewrite String.eqb_refl. f_equal. now apply Hnone.
  - destruct (String.eqb_spec (name d) (name c)) as [Heq|Hne].
    + exfalso. apply Hnotin. rewrite Heq. now apply in_map.
    + now apply IH.
Qed.

(** In a frame without repeated labels [df[field]] is the column. *)
Lemma max_str_len_column (df : DataFrame) (c : Series) :
  unique_labels df -> In c (columns df) ->
  max_str_len df (name c) = Ok (series_max (cell_lengths c)).
Proof.
  intros Hu Hin. unfold max_str_len, getitem.
  now rewrite (filter_unique_label _ _ Hu Hin).
Qed.

Lemma column_entry_column (df : DataFrame) (c : Series) :
  unique_labels df -> In c (columns df) ->
  column_entry df (name c, dtype c)
  = bind (get_mysql_field (dtype c) (series_max (cell_lengths c)))
         (fun ty => Ok (name c ++ " " ++ ty)).
Proof.
  intros Hu Hin. unfold column_entry.
  now rewrite (max_str_len_column _ _ Hu Hin).
Qed.

(** The entry of a text column carries the inferred width. *)
Lemma column_entry_varchar (df : DataFrame) (c : Series) :
  unique_labels df -> In c (columns df) -> string_affinity (dtype c) = true ->
  column_entry df (name c, dtype c)
  = Ok (name c ++ " VARCHAR(" ++ format_number (inferred_width c) ++ ")").
Proof.
  intros Hu Hin Hs. rewrite (column_entry_column _ _ Hu Hin).
  unfold string_affinity in Hs.
  apply andb_true_iff in Hs as [Hs Hobj]. apply andb_true_iff in Hs as [Hi Hf].
  apply negb_true_iff in Hi, Hf.
  unfold get_mysql_field. rewrite Hi, Hf, Hobj. reflexivity.
Qed.

Lemma fold_max_is_max (l : list Z) (x : Z) :
  is_max (fold_left Z.max l x) (x :: l).
Proof.
  revert x; induction l as [|y l IH]; intros x; simpl.
  - split; [now left | constructor; [lia | constructor]].
  - destruct (IH (Z.max x y)) as [Hin Hall]. split.
    + destruct Hin as [Heq | Hin].
      * rewrite <- Heq.
        destruct (Z.max_spec x y) as [[_ ->] | [_ ->]]; simpl; auto.
      * right; now right.
    + inversion Hall as [|? ? Hm Hl]; subst.
      constructor; [lia|]. constructor; [lia | exact Hl].
Qed.

(** The maximum of a series with an element is an integer, the greatest
    of the series. *)
Lemma series_max_is_max (l : list Z) :
  l <> [] -> exists m, series_max l = Int m /\ is_max m l.
Proof.
  destruct l as [|x l]; [congruence|]. intros _.
  exists (fold_left Z.max l x). split; [reflexivity | apply fold_max_is_max].
Qed.

Lemma series_max_nonneg (c : Series) (m : Z) :
  series_max (cell_lengths c) = Int m -> 0 <= m.
Proof.
  intros H. destruct (cell_lengths c) as [|x l] eqn:E; [discriminate|].
  assert (Hne : cell_lengths c <> []) by (rewrite E; discriminate).
  destruct (series_max_is_max _ Hne) as [m' [Hm' [Hin _]]].
  rewrite E in Hm'. rewrite H in Hm'. inversion Hm'; subst m'.
  unfold cell_lengths, str_len in Hin. apply in_map_iff in Hin as [s [<- _]].
  unfold len. lia.
Qed.

Lemma cell_lengths_nonempty (c : Series) :
  values c <> [] -> cell_lengths c <> [].
Proof.
  unfold cell_lengths, str_len, astype_str.
  destruct (values c); [congruence | discriminate].
Qed.

End FrameFacts.

(** ** Lists of results *)

Section MapM.

Context {A B : Type} (f : A -> result B).

Lemma mapM_Forall2 (l : list A) (bs : list B) :
  mapM f l = Ok bs <-> Forall2 (fun a b => f a = Ok b) l bs.
Proof.
  revert bs; induction l as [|a l IH]; intros bs; simpl.
  - split.
    + intros H; inversion H; constructor.
    + intros H; inversion H; reflexivity.
  - destruct (f a) as [b|e] eqn:Ea; simpl.
    + destruct (mapM f l) as [bs'|e] eqn:El; simpl.
      * split.
        -- intros H; inversion H; subst. constructor; [exact Ea | now apply IH].
        -- intros H; inversion H as [|? b' ? bs'' Hb Hrest]; subst.
           apply IH in Hrest. congruence.
      * split; [discriminate|].
        intros H; inversion H as [|? b' ? bs'' Hb Hrest]; subst.
        apply IH in Hrest. discriminate.
    + split; [discriminate|].
      intros H; inversion H; congruence.
Qed.


(** When some element raises, the list raises. *)
Lemma mapM_some_raise (l : list A) :
  Exists (fun a => exists e, f a = Raise e) l -> exists e, mapM f l = Raise e.
Proof.
  induction 1 as [a l [e Ha] | a l _ [e IH]]; simpl.
  - exists e. now rewrite Ha.
  - destruct (f a) as [b|e']; simpl.
    + exists e. now rewrite IH.
    + now exists e'.
Qed.

End MapM.

(** ** The CREATE TABLE statement *)

(** In any frame the entry of a column whose label does not match
    raises: reading the column does, or else the type mapping. *)
Lemma column_entry_unrecognized_raises (df : DataFrame) (c : Series) :
  recognized (dtype c) = false ->
  exists e, column_entry df (name c, dtype c) = Raise e.
Proof.
  intros Hrec. unfold column_entry.
  destruct (max_str_len df (name c)) as [n|e]; simpl; [|now exists e].
  rewrite get_mysql_field_first_match.
  destruct (first_match (dtype c)) as [row|] eqn:E.
  - assert (H : recognized (dtype c) = true)
      by (apply recognized_first_match; now exists row).
    congruence.
  - simpl. eexists. reflexivity.
Qed.

Section CreateQuery.

Variable df : DataFrame.
Hypothesis labels : unique_labels df.

(** A column whose label matches has an entry, made of its name and
    its token. *)
Lemma column_entry_recognized (c : Series) :
  In c (columns df) -> recognized (dtype c) = true ->
  exists ty,
    get_mysql_field (dtype c) (series_max (cell_lengths c)) = Ok ty /\
    column_entry df (name c, dtype c) = Ok (name c ++ " " ++ ty).
Proof.
  intros Hin Hrec.
  destruct (recognized_label_has_token (dtype c)
              (series_max (cell_lengths c)) Hrec) as [ty Hty].
  exists ty. split; [exact Hty|].
  now rewrite (column_entry_column _ _ labels Hin), Hty.
Qed.


Lemma entries_of_recognized (l : list Series) :
  incl l (columns df) ->
  Forall (fun c => recognized (dtype c) = true) l ->
  exists types,
    Forall2 (fun c ty =>
      get_mysql_field (dtype c) (series_max (cell_lengths c)) = Ok ty) l types /\
    mapM (column_entry df) (map (fun c => (name c, dtype c)) l)
    = Ok (map (fun p => name (fst p) ++ " " ++ snd p) (combine l types)).
Proof.
  induction l as [|c l IH]; intros Hincl Hall.
  - exists []. split; [constructor | reflexivity].
  - inversion Hall as [|? ? Hc Hl]; subst.
    destruct (column_entry_recognized c (Hincl c (or_introl eq_refl)) Hc)
      as [ty [Hty Hentry]].
    destruct (IH (fun x Hx => Hincl x (or_intror Hx)) Hl) as [types [Hf2 Hm]].
    exists (ty :: types). split; [now constructor|].
    cbn [map mapM combine]. rewrite Hentry. cbn [bind]. rewrite Hm. reflexivity.
Qed.


End CreateQuery.

(** Closed facts about the example frames. *)
Ltac distinct_labels :=
  unfold unique_labels; simpl; repeat constructor; simpl; intuition discriminate.

Ltac all_columns :=
  simpl; repeat constructor.

(** C4, as the code has it: for a frame without repeated labels whose
    labels all match, [create_query] returns one statement, CREATE TABLE
    IF NOT EXISTS, the table name, and between parentheses one entry for
    each column, in the order of the columns, each the column name, a
    space and the token of its dtype, the entries joined by a comma and a
    line feed. *)
Theorem create_query_shape (df : DataFrame) (table_name : string) :
  unique_labels df ->
  Forall (fun c => recognized (dtype c) = true) (columns df) ->
  exists types : list string,
    Forall2 (fun c ty =>
      get_mysql_field (dtype c) (series_max (cell_lengths c)) = Ok ty)
      (columns df) types /\
    create_query df table_name
    = Ok ("CREATE TABLE IF NOT EXISTS " ++ table_name ++ " ("
          ++ String.concat ("," ++ nl)
               (map (fun p => name (fst p) ++ " " ++ snd p)
                    (combine (columns df) types))
          ++ ");").
Proof.
  intros Hu Hall.
  destruct (entries_of_recognized df Hu (columns df) (incl_refl _) Hall)
    as [types [Hf2 Hm]].
  exists types. split; [exact Hf2|].
  unfold create_query, dtypes. rewrite Hm. reflexivity.
Qed.

Lemma create_query_shape_witness :
  unique_labels Examples.two_ints /\
  exists types : list string,
    Forall2 (fun c ty =>
      get_mysql_field (dtype c) (series_max (cell_lengths c)) = Ok ty)
      (columns Examples.two_ints) types /\
    create_query Examples.two_ints "t"
    = Ok ("CREATE TABLE IF NOT EXISTS " ++ "t" ++ " ("
          ++ String.concat ("," ++ nl)
               (map (fun p => name (fst p) ++ " " ++ snd p)
                    (combine (columns Examples.two_ints) types))
          ++ ");").
Proof.
  assert (Hu : unique_labels Examples.two_ints) by distinct_labels.
  split; [exact Hu|].
  apply (create_query_shape Examples.two_ints "t" Hu).
  all_columns.
Defined.

(** C4, as the spec words it, fails: two entries are not separated by a
    comma and a space. *)
Lemma create_query_separator_is_not_comma_space :
  create_query Examples.two_ints "t"
  = Ok ("CREATE TABLE IF NOT EXISTS t (a INT," ++ nl ++ "b INT);") /\
  create_query Examples.two_ints "t"
  <> Ok "CREATE TABLE IF NOT EXISTS t (a INT, b INT);".
Proof. split; [reflexivity | vm_compute; discriminate]. Qed.




(** C8, as the code has it: for the two records of the example and the
    table t the columns are id INT, name VARCHAR(11) and amt DOUBLE, and
    the statement is these three entries, a comma and a line feed between
    them. *)
Theorem create_query_people_statement :
  column_entry Examples.people ("id", "int64") = Ok "id INT" /\
  column_entry Examples.people ("name", "object") = Ok "name VARCHAR(11)" /\
  column_entry Examples.people ("amt", "float64") = Ok "amt DOUBLE" /\
  create_query Examples.people "t"
  = Ok ("CREATE TABLE IF NOT EXISTS t (id INT," ++ nl ++ "name VARCHAR(11),"
        ++ nl ++ "amt DOUBLE);").
Proof. repeat split; reflexivity. Qed.

(** C8, as the spec words it, fails: the statement is another text, and
    the width of name is the observed 11, not 100. *)
Lemma create_query_people_not_as_specified :
  create_query Examples.people "t"
  <> Ok "CREATE TABLE IF NOT EXISTS t (id INT, name VARCHAR(100), amt DOUBLE);"
  /\ inferred_width (mkSeries "name" "object" [VStr "Ana"; VStr "Bartholomew"])
     = Int 11.
Proof. split; [vm_compute; discriminate | reflexivity]. Qed.

(** ** The width of a text column *)

Section Width.

(** The width by cases on the greatest length. *)
Lemma inferred_width_cases (c : Series) (m : Z) :
  series_max (cell_lengths c) = Int m ->
  inferred_width c
  = Int (if m =? 0 then 100 else if m >? 10000 then 10000 else m).
Proof.
  intros H. unfold inferred_width, varchar_length. rewrite H. simpl.
  destruct (m =? 0); [reflexivity|]. destruct (m >? 10000); reflexivity.
Qed.

Lemma is_max_unique (l : list Z) (m1 m2 : Z) :
  is_max m1 l -> is_max m2 l -> m1 = m2.
Proof.
  intros [Hin1 Hall1] [Hin2 Hall2]. rewrite Forall_forall in Hall1, Hall2.
  specialize (Hall1 _ Hin2). specialize (Hall2 _ Hin1). lia.
Qed.

Lemma is_max_incl (l1 l2 : list Z) (m1 m2 : Z) :
  incl l1 l2 -> is_max m1 l1 -> is_max m2 l2 -> m1 <= m2.
Proof.
  intros Hincl [Hin1 _] [_ Hall2]. rewrite Forall_forall in Hall2.
  apply Hall2, Hincl, Hin1.
Qed.

Lemma cell_lengths_incl (c1 c2 : Series) :
  incl (values c1) (values c2) -> incl (cell_lengths c1) (cell_lengths c2).
Proof.
  intros Hincl k Hk. unfold cell_lengths, str_len, astype_str in *.
  rewrite map_map in *. apply in_map_iff in Hk as [v [<- Hv]].
  apply in_map_iff. exists v. split; [reflexivity | now apply Hincl].
Qed.

Lemma in_cell_lengths (c : Series) (v : value) :
  In v (values c) -> In (len (str v)) (cell_lengths c).
Proof.
  intros Hv. unfold cell_lengths, str_len, astype_str.
  rewrite map_map. apply in_map_iff. now exists v.
Qed.

End Width.

(** C2, as the code has it: for a text column with at least one row, in a
    frame without repeated labels, the greatest serialized length [m] of
    its cells (nulls serialized as None or nan included) decides the
    width: 100 when [m] is 0, 10000 when [m] is above 10000, and [m]
    itself otherwise; the entry of the column is VARCHAR of that width. *)
Theorem varchar_width_of_column (df : DataFrame) (c : Series) :
  unique_labels df -> In c (columns df) ->
  string_affinity (dtype c) = true -> values c <> [] ->
  exists m,
    is_max m (cell_lengths c) /\
    inferred_width c
    = Int (if m =? 0 then 100 else if m >? 10000 then 10000 else m) /\
    column_entry df (name c, dtype c)
    = Ok (name c ++ " VARCHAR("
          ++ str_of_Z (if m =? 0 then 100 else if m >? 10000 then 10000 else m)
          ++ ")").
Proof.
  intros Hu Hin Hs Hne.
  destruct (series_max_is_max _ (cell_lengths_nonempty c Hne)) as [m [Hm Hmax]].
  exists m. split; [exact Hmax|].
  pose proof (inferred_width_cases c m Hm) as Hw. split; [exact Hw|].
  rewrite (column_entry_varchar df c Hu Hin Hs), Hw. reflexivity.
Qed.

Lemma varchar_width_of_column_witness :
  exists m,
    is_max m (cell_lengths Examples.short_and_long_f) /\
    inferred_width Examples.short_and_long_f
    = Int (if m =? 0 then 100 else if m >? 10000 then 10000 else m) /\
    column_entry Examples.short_and_long ("f", "object")
    = Ok ("f" ++ " VARCHAR("
          ++ str_of_Z (if m =? 0 then 100 else if m >? 10000 then 10000 else m)
          ++ ")").
Proof.
  apply (varchar_width_of_column Examples.short_and_long Examples.short_and_long_f).
  - distinct_labels.
  - simpl. left. reflexivity.
  - reflexivity.
  - simpl. discriminate.
Defined.

(** C2, as the spec words it, fails: a text column of two nulls has no
    value that is not null, and its width is 4, the length of None, not
    the default 100. *)
Lemma width_of_null_column_is_not_default :
  values Examples.nulls_name = [VNone; VNone] /\
  inferred_width Examples.nulls_name = Int 4 /\
  create_query Examples.only_nulls "t"
  = Ok "CREATE TABLE IF NOT EXISTS t (name VARCHAR(4));" /\
  inferred_width Examples.nulls_name <> Int 100.
Proof. repeat split; try reflexivity. vm_compute. discriminate. Qed.

(** C6, as the code has it: for a text column with at least one row the
    width is at most 10000, and it is at least the serialized length of
    every cell, the lengths above 10000 counted as 10000: it is no
    underestimate as long as no cell is longer than 10000. *)
Theorem varchar_width_bounds (df : DataFrame) (c : Series) :
  unique_labels df -> In c (columns df) ->
  string_affinity (dtype c) = true -> values c <> [] ->
  exists w,
    inferred_width c = Int w /\
    column_entry df (name c, dtype c)
    = Ok (name c ++ " VARCHAR(" ++ str_of_Z w ++ ")") /\
    w <= 10000 /\
    forall v, In v (values c) -> Z.min (len (str v)) 10000 <= w.
Proof.
  intros Hu Hin Hs Hne.
  destruct (series_max_is_max _ (cell_lengths_nonempty c Hne)) as [m [Hm [_ Hall]]].
  pose proof (inferred_width_cases c m Hm) as Hw.
  exists (if m =? 0 then 100 else if m >? 10000 then 10000 else m).
  split; [exact Hw|]. split.
  - rewrite (column_entry_varchar df c Hu Hin Hs), Hw. reflexivity.
  - pose proof (series_max_nonneg c m Hm) as Hpos.
    rewrite Forall_forall in Hall. split.
    + destruct (Z.eqb_spec m 0); [lia|].
      destruct (Z.gtb_spec m 10000); lia.
    + intros v Hv. pose proof (Hall _ (in_cell_lengths c v Hv)) as Hle.
      destruct (Z.eqb_spec m 0); [lia|].
      destruct (Z.gtb_spec m 10000); lia.
Qed.

Lemma varchar_width_bounds_witness :
  exists w,
    inferred_width Examples.short_and_long_f = Int w /\
    column_entry Examples.short_and_long ("f", "object")
    = Ok ("f" ++ " VARCHAR(" ++ str_of_Z w ++ ")") /\
    w <= 10000 /\
    forall v, In v (values Examples.short_and_long_f) ->
              Z.min (len (str v)) 10000 <= w.
Proof.
  apply (varchar_width_bounds Examples.short_and_long Examples.short_and_long_f).
  - distinct_labels.
  - simpl. left. reflexivity.
  - reflexivity.
  - simpl. discriminate.
Defined.

(** C6, as the spec words it, fails: a text of 10001 characters gets the
    width 10000, below its length. *)
Lemma width_underestimates_oversized_text :
  series_max (cell_lengths Examples.oversized_s) = Int 10001 /\
  inferred_width Examples.oversized_s = Int 10000 /\
  create_query Examples.oversized "t"
  = Ok "CREATE TABLE IF NOT EXISTS t (s VARCHAR(10000));" /\
  10000 < 10001.
Proof. repeat split; vm_compute; reflexivity. Qed.

(** C7, as the code has it: take the text column [f] in two frames, every
    cell of the first among the cells of the second, and some cell of the
    first with a serialization that is not empty.  Then both widths are
    integers, the width in the second frame is at least the width in the
    first, and both are at most 10000. *)
Theorem width_monotone (df1 df2 : DataFrame) (c1 c2 : Series) :
  unique_labels df1 -> unique_labels df2 ->
  In c1 (columns df1) -> In c2 (columns df2) -> name c1 = name c2 ->
  string_affinity (dtype c1) = true -> string_affinity (dtype c2) = true ->
  incl (values c1) (values c2) ->
  Exists (fun v => str v <> "") (values c1) ->
  exists w1 w2,
    column_entry df1 (name c1, dtype c1)
    = Ok (name c1 ++ " VARCHAR(" ++ str_of_Z w1 ++ ")") /\
    column_entry df2 (name c2, dtype c2)
    = Ok (name c2 ++ " VARCHAR(" ++ str_of_Z w2 ++ ")") /\
    inferred_width c1 = Int w1 /\ inferred_width c2 = Int w2 /\
    w1 <= w2 /\ w2 <= 10000.
Proof.
  intros Hu1 Hu2 Hin1 Hin2 _ Hs1 Hs2 Hincl Hex.
  apply Exists_exists in Hex as [v [Hv Hvne]].
  assert (Hne1 : values c1 <> []) by (intros E; rewrite E in Hv; contradiction).
  assert (Hne2 : values c2 <> [])
    by (intros E; apply Hincl in Hv; rewrite E in Hv; contradiction).
  destruct (series_max_is_max _ (cell_lengths_nonempty c1 Hne1)) as [m1 [Hm1 Hmax1]].
  destruct (series_max_is_max _ (cell_lengths_nonempty c2 Hne2)) as [m2 [Hm2 Hmax2]].
  pose proof (inferred_width_cases c1 m1 Hm1) as Hw1.
  pose proof (inferred_width_cases c2 m2 Hm2) as Hw2.
  pose proof (is_max_incl _ _ _ _ (cell_lengths_incl c1 c2 Hincl) Hmax1 Hmax2) as Hle.
  assert (Hpos : 1 <= m1).
  { destruct Hmax1 as [_ Hall]. rewrite Forall_forall in Hall.
    pose proof (Hall _ (in_cell_lengths c1 v Hv)) as Hlv.
    assert (1 <= len (str v)); [|lia].
    unfold len. destruct (str v); [congruence | simpl; lia]. }
  exists (if m1 =? 0 then 100 else if m1 >? 10000 then 10000 else m1),
         (if m2 =? 0 then 100 else if m2 >? 10000 then 10000 else m2).
  split; [rewrite (column_entry_varchar df1 c1 Hu1 Hin1 Hs1), Hw1; reflexivity|].
  split; [rewrite (column_entry_varchar df2 c2 Hu2 Hin2 Hs2), Hw2; reflexivity|].
  split; [exact Hw1|]. split; [exact Hw2|].
  destruct (Z.eqb_spec m1 0); [lia|]. destruct (Z.eqb_spec m2 0); [lia|].
  destruct (Z.gtb_spec m1 10000); destruct (Z.gtb_spec m2 10000); lia.
Qed.

Lemma width_monotone_witness :
  exists w1 w2,
    column_entry Examples.short ("f", "object")
    = Ok ("f" ++ " VARCHAR(" ++ str_of_Z w1 ++ ")") /\
    column_entry Examples.short_and_long ("f", "object")
    = Ok ("f" ++ " VARCHAR(" ++ str_of_Z w2 ++ ")") /\
    inferred_width Examples.short_f = Int w1 /\
    inferred_width Examples.short_and_long_f = Int w2 /\
    w1 <= w2 /\ w2 <= 10000.
Proof.
  apply (width_monotone Examples.short Examples.short_and_long
           Examples.short_f Examples.short_and_long_f).
  - distinct_labels.
  - distinct_labels.
  - simpl. left. reflexivity.
  - simpl. left. reflexivity.
  - reflexivity.
  - reflexivity.
  - reflexivity.
  - intros v Hv. simpl in *. intuition.
  - simpl. apply Exists_cons_hd. discriminate.
Defined.

(** C7, as the spec words it, fails: the one record with an empty text is
    among the two records of the larger batch, and its width, the default
    100, is above the width 1 of the larger batch. *)
Lemma width_not_monotone_from_blank :
  incl (values Examples.blank_f) (values Examples.blank_and_a_f) /\
  inferred_width Examples.blank_f = Int 100 /\
  inferred_width Examples.blank_and_a_f = Int 1 /\
  create_query Examples.blank "t"
  = Ok "CREATE TABLE IF NOT EXISTS t (f VARCHAR(100));" /\
  create_query Examples.blank_and_a "t"
  = Ok "CREATE TABLE IF NOT EXISTS t (f VARCHAR(1));" /\
  ~ (1 >= 100).
Proof.
  split; [intros v Hv; simpl in *; intuition|].
  repeat split; try reflexivity. lia.
Qed.

(** ** The loader *)

Section LoaderFacts.

Context {S : Type} (conn : Connection S) (format_table : string -> result string).

(** The f-string reads [table_name] first, and main.py binds no such
    name. *)
Lemma insert_query_as_written :
  insert_query module_globals
  = Raise (NameError "name 'table_name' is not defined").
Proof. reflexivity. Qed.

(** A computation that raises at its first step leaves the rest out. *)
Lemma seq_prog_raise {A B : Type} (e : exn) (k : A -> prog S B) (s : S) :
  seq_prog (lift (Raise e)) k s = (Raise e, s).
Proof. reflexivity. Qed.

End LoaderFacts.

(** C3: with the names main.py binds, every call of [load_transformed]
    raises [NameError] when the f-string of line 335 is evaluated, and
    the sink is left as it was; so does the second call on the same
    batch.  No row is ever written, whatever the driver and the batch. *)
Theorem load_transformed_as_written_raises
  {S : Type} (conn : Connection S) (format_table : string -> result string)
  (data : DataFrame) (s : S) :
  load_transformed conn format_table module_globals data s
  = (Raise (NameError "name 'table_name' is not defined"), s)
  /\ load_transformed conn format_table module_globals data
       (snd (load_transformed conn format_table module_globals data s))
     = (Raise (NameError "name 'table_name' is not defined"), s).
Proof.
  assert (H : forall s', load_transformed conn format_table module_globals data s'
                         = (Raise (NameError "name 'table_name' is not defined"), s')).
  { intros s'. unfold load_transformed.
    rewrite insert_query_as_written. apply seq_prog_raise. }
  split; [apply H|]. rewrite (H s). simpl. apply H.
Qed.

(** C9, as the code has it: [load_transformed] hands no row count to its
    caller.  Whatever the module namespace, the driver, the batch and the
    sink, a call either raises or returns [None]. *)
Theorem load_transformed_returns_none
  {S : Type} (conn : Connection S) (format_table : string -> result string)
  (globals : namespace) (data : DataFrame) (s : S) :
  (exists e, fst (load_transformed conn format_table globals data s) = Raise e)
  \/ fst (load_transformed conn format_table globals data s) = Ok PyNone.
Proof.
  unfold load_transformed, seq_prog, with_exit, lift, ret.
  destruct (insert_query globals) as [q|e]; [|left; now exists e].
  destruct (cm_enter conn s) as [[[]|e] s1]; [|left; now exists e].
  assert (Hcommit : forall s3,
             (exists e, fst (let (r, s4) := commit conn s3 in
                             match r with
                             | Ok _ => (Ok PyNone, s4)
                             | Raise e => (Raise e, s4)
                             end) = Raise e)
             \/ fst (let (r, s4) := commit conn s3 in
                     match r with
                     | Ok _ => (Ok PyNone, s4)
                     | Raise e => (Raise e, s4)
                     end) = Ok PyNone).
  { intros s3. destruct (commit conn s3) as [[[]|e] s4];
      [right; reflexivity | left; now exists e]. }
  destruct (format_table q) as [q'|e].
  - destruct (executemany conn q' (itertuples data) s1) as [[[]|e] s2].
    + destruct (cm_exit conn None s2) as [[b|e] s3]; [|left; now exists e].
      apply Hcommit.
    + destruct (cm_exit conn (Some e) s2) as [[[|]|e'] s3].
      * apply Hcommit.
      * left; now exists e.
      * left; now exists e'.
  - destruct (cm_exit conn (Some e) s1) as [[[|]|e'] s3].
    + apply Hcommit.
    + left; now exists e.
    + left; now exists e'.
Qed.

(** C9, as the spec words it, fails: once the three names are bound the
    call on two new rows completes, the sink holds the two rows, and the
    caller gets [None], not the count 2; with the names main.py binds
    the call does not complete at all. *)
Lemma load_transformed_gives_no_count :
  load_transformed Examples.fake_mysql Examples.format_plain
    Examples.bound_globals Examples.payments []
  = (Ok PyNone, [[VStr "u1"; VInt 10]; [VStr "u2"; VInt 20]])
  /\ fst (load_transformed Examples.fake_mysql Examples.format_plain
            Examples.bound_globals Examples.payments [])
     <> Ok (PyInt 2)
  /\ fst (load_transformed Examples.fake_mysql Examples.format_plain
            module_globals Examples.payments [])
     = Raise (NameError "name 'table_name' is not defined").
Proof. repeat split; try reflexivity. vm_compute. discriminate. Qed.

(** ** Further properties of the type mapping *)

(** X1: what [get_mysql_field] can give.  When it returns, the label
    matches and the token is one of INT, DOUBLE, DATETIME, DATE, BOOL or,
    for a text label, VARCHAR with the width of the length; when it
    raises, the label matches none of the six substrings and the
    exception is the [ValueError] that names the lower-case label. *)
Theorem get_mysql_field_outcome (type : string) (length : number) :
  match get_mysql_field type length with
  | Ok token =>
      recognized type = true /\
      (In token plain_tokens \/
       (string_affinity type = true /\
        token = "VARCHAR(" ++ format_number (varchar_length length) ++ ")"))
  | Raise e =>
      recognized type = false /\
      e = ValueError ("Unknown type '" ++ lower type ++ "'")
  end.
Proof.
  unfold get_mysql_field, recognized, recognized_substrings, string_affinity,
    plain_tokens.
  cbn [existsb].
  repeat (match goal with
          | |- context [contains ?k (lower type)] =>
              destruct (contains k (lower type))
          end);
    cbn [orb andb negb In]; split; auto 10.
Qed.

(** X2: for a text label and a length that is not negative, the token is
    VARCHAR of a width between 1 and 10000, and of the length itself when
    the length is between 1 and 10000. *)
Theorem varchar_token_in_range (type : string) (n : Z) :
  string_affinity type = true -> 0 <= n ->
  exists w,
    get_mysql_field type (Int n) = Ok ("VARCHAR(" ++ str_of_Z w ++ ")") /\
    1 <= w <= 10000 /\
    (1 <= n <= 10000 -> w = n).
Proof.
  intros Hs Hn. unfold string_affinity in Hs.
  apply andb_true_iff in Hs as [Hs Hobj]. apply andb_true_iff in Hs as [Hi Hf].
  apply negb_true_iff in Hi, Hf.
  unfold get_mysql_field. rewrite Hi, Hf, Hobj.
  unfold varchar_length, num_eqb, num_gtb.
  destruct (Z.eqb_spec n 0) as [->|Hn0].
  - exists 100. split; [reflexivity|]. split; lia.
  - destruct (Z.gtb_spec n 10000).
    + exists 10000. split; [reflexivity|]. split; lia.
    + exists n. split; [reflexivity|]. split; lia.
Qed.

Lemma varchar_token_in_range_witness :
  exists w,
    get_mysql_field "object" (Int 0) = Ok ("VARCHAR(" ++ str_of_Z w ++ ")") /\
    1 <= w <= 10000 /\
    (1 <= 0 <= 10000 -> w = 0).
Proof.
  apply (varchar_token_in_range "object" 0); [reflexivity | lia].
Defined.

(** ** Further properties of the CREATE TABLE statement *)

(** X3: a text column without a row has no greatest length, and its
    entry is VARCHAR(nan). *)
Theorem empty_text_column_entry (df : DataFrame) (c : Series) :
  unique_labels df -> In c (columns df) ->
  string_affinity (dtype c) = true -> values c = [] ->
  column_entry df (name c, dtype c) = Ok (name c ++ " VARCHAR(nan)").
Proof.
  intros Hu Hin Hs Hv.
  rewrite (column_entry_varchar df c Hu Hin Hs).
  unfold inferred_width, cell_lengths, astype_str. rewrite Hv. reflexivity.
Qed.

Lemma empty_text_column_entry_witness :
  column_entry MoreExamples.no_rows ("f", "object") = Ok ("f" ++ " VARCHAR(nan)").
Proof.
  apply (empty_text_column_entry MoreExamples.no_rows MoreExamples.no_rows_f).
  - distinct_labels.
  - simpl. left. reflexivity.
  - reflexivity.
  - reflexivity.
Defined.

(** X4: for a frame without columns, as an empty list of records gives,
    [create_query] returns a statement with nothing between the
    parentheses, whatever the table name. *)
Theorem create_query_without_columns (df : DataFrame) (table_name : string) :
  columns df = [] ->
  create_query df table_name
  = Ok ("CREATE TABLE IF NOT EXISTS " ++ table_name ++ " ();").
Proof.
  intros H. unfold create_query, dtypes. rewrite H. reflexivity.
Qed.

Lemma create_query_without_columns_witness :
  create_query MoreExamples.no_columns "gps_data"
  = Ok ("CREATE TABLE IF NOT EXISTS " ++ "gps_data" ++ " ();").
Proof.
  apply (create_query_without_columns MoreExamples.no_columns "gps_data").
  reflexivity.
Defined.

Section SameInput.

Lemma series_max_same_elements (l1 l2 : list Z) :
  incl l1 l2 -> incl l2 l1 -> series_max l1 = series_max l2.
Proof.
  intros H12 H21.
  destruct l1 as [|x l1].
  - destruct l2 as [|y l2]; [reflexivity|].
    exfalso. exact (H21 y (or_introl eq_refl)).
  - destruct l2 as [|y l2].
    + exfalso. exact (H12 x (or_introl eq_refl)).
    + destruct (series_max_is_max (x :: l1)) as [m1 [E1 M1]]; [discriminate|].
      destruct (series_max_is_max (y :: l2)) as [m2 [E2 M2]]; [discriminate|].
      rewrite E1, E2. f_equal.
      pose proof (is_max_incl _ _ _ _ H12 M1 M2).
      pose proof (is_max_incl _ _ _ _ H21 M2 M1). lia.
Qed.

Lemma string_affinity_lower (t1 t2 : string) :
  lower t1 = lower t2 -> string_affinity t1 = string_affinity t2.
Proof. intros H. unfold string_affinity. now rewrite H. Qed.

(** The mapping reads the lower-case label, and the length for a text
    label only. *)
Lemma get_mysql_field_same (t1 t2 : string) (l1 l2 : number) :
  lower t1 = lower t2 -> (string_affinity t1 = true -> l1 = l2) ->
  get_mysql_field t1 l1 = get_mysql_field t2 l2.
Proof.
  intros Hlow Hlen. unfold get_mysql_field, string_affinity in *.
  rewrite <- Hlow.
  destruct (contains "int" (lower t1)); [reflexivity|].
  destruct (contains "float" (lower t1)); [reflexivity|].
  destruct (contains "object" (lower t1)); [|reflexivity].
  now rewrite Hlen.
Qed.

Lemma column_entry_same (df1 df2 : DataFrame) (c1 c2 : Series) :
  unique_labels df1 -> unique_labels df2 ->
  In c1 (columns df1) -> In c2 (columns df2) ->
  same_inference_input c1 c2 ->
  column_entry df1 (name c1, dtype c1) = column_entry df2 (name c2, dtype c2).
Proof.
  intros Hu1 Hu2 Hin1 Hin2 [Hname [Hlow Hcells]].
  rewrite (column_entry_column df1 c1 Hu1 Hin1),
          (column_entry_column df2 c2 Hu2 Hin2), Hname.
  rewrite (get_mysql_field_same (dtype c1) (dtype c2)
             (series_max (cell_lengths c1)) (series_max (cell_lengths c2)) Hlow).
  - reflexivity.
  - intros Hs. destruct (Hcells Hs) as [H12 H21].
    apply series_max_same_elements; now apply cell_lengths_incl.
Qed.

Lemma mapM_same {A B C : Type} (f : A -> result C) (g : B -> result C)
  (l1 : list A) (l2 : list B) :
  Forall2 (fun a b => f a = g b) l1 l2 -> mapM f l1 = mapM g l2.
Proof.
  induction 1 as [|a b l1 l2 Hab _ IH]; simpl; [reflexivity|].
  now rewrite Hab, IH.
Qed.

Lemma Forall2_with_members {A B : Type} (R : A -> B -> Prop)
  (l1 : list A) (l2 : list B) :
  Forall2 R l1 l2 -> Forall2 (fun a b => R a b /\ In a l1 /\ In b l2) l1 l2.
Proof.
  induction 1 as [|a b l1 l2 Hab _ IH]; constructor.
  - split; [exact Hab|]. split; now left.
  - eapply Forall2_impl; [|exact IH].
    intros x y [Hxy [Hx Hy]]. split; [exact Hxy|]. split; now right.
Qed.

End SameInput.

(** X5: the statement depends on the frame only through the label of
    each column, its dtype up to case and, for a text column, the set of
    its cells.  Two frames without repeated labels whose columns agree
    on these, one by one, get the same result from [create_query], the
    same statement or the same exception: the order of the records, their
    repetition and the cells of the other columns do not count. *)
Theorem create_query_same_input (df1 df2 : DataFrame) (table_name : string) :
  unique_labels df1 -> unique_labels df2 ->
  Forall2 same_inference_input (columns df1) (columns df2) ->
  create_query df1 table_name = create_query df2 table_name.
Proof.
  intros Hu1 Hu2 Hcols. unfold create_query, dtypes.
  rewrite (mapM_same (column_entry df1) (column_entry df2)
             (map (fun c => (name c, dtype c)) (columns df1))
             (map (fun c => (name c, dtype c)) (columns df2))).
  - reflexivity.
  - apply Forall2_with_members in Hcols.
    induction Hcols as [|c1 c2 l1 l2 [Hsame [Hin1 Hin2]] _ IH]; simpl;
      constructor; [|exact IH].
    now apply column_entry_same.
Qed.

Lemma create_query_same_input_witness :
  create_query Examples.people "t"
  = create_query MoreExamples.people_reordered "t".
Proof.
  apply (create_query_same_input Examples.people MoreExamples.people_reordered "t").
  - distinct_labels.
  - distinct_labels.
  - simpl.
    constructor; [|constructor; [|constructor; [|constructor]]];
      (split; [reflexivity|]; split; [reflexivity|]; intros H).
    + vm_compute in H. discriminate H.
    + split; intros v Hv; simpl in *; intuition.
    + vm_compute in H. discriminate H.
Defined.

(** ** Creating the table *)

Lemma append_assoc (a b c : string) : (a ++ b) ++ c = a ++ (b ++ c).
Proof.
  induction a as [|x a IH]; simpl; [reflexivity | now rewrite IH].
Qed.

Section CreationFacts.

Context {S : Type} (cursor : Cursor S).

Lemma create_query_raises_on_unrecognized (df : DataFrame) (table_name : string) :
  Exists (fun c => recognized (dtype c) = false) (columns df) ->
  exists e, create_query df table_name = Raise e.
Proof.
  intros Hex.
  destruct (mapM_some_raise (column_entry df) (dtypes df)) as [e He].
  - unfold dtypes. apply Exists_exists in Hex as [c [Hin Hc]].
    apply Exists_exists. exists (name c, dtype c). split.
    + apply in_map_iff. now exists c.
    + now apply column_entry_unrecognized_raises.
  - exists e. unfold create_query. now rewrite He.
Qed.

Lemma create_db_mysql_unfold (data : DataFrame) (name : string) (s : S) :
  create_db_mysql cursor data name s
  = match create_query data name with
    | Ok q =>
        match cursor_execute cursor q s with
        | (Ok _, s') => (Ok PyNone, s')
        | (Raise e, s') => (Raise e, s')
        end
    | Raise e => (Raise e, s)
    end.
Proof.
  unfold create_db_mysql, seq_prog, lift, ret.
  destruct (create_query data name) as [q|e]; [|reflexivity].
  destruct (cursor_execute cursor q s) as [[[]|e] s']; reflexivity.
Qed.

End CreationFacts.

(** X6: when a column of the frame has a label that matches none of the
    six substrings, [create_db_mysql] raises before it reaches the
    cursor: no statement is executed and the database is as it was. *)
Theorem create_db_mysql_unrecognized_leaves_database
  {S : Type} (cursor : Cursor S) (data : DataFrame) (name : string) (s : S) :
  Exists (fun c => recognized (dtype c) = false) (columns data) ->
  exists e, create_db_mysql cursor data name s = (Raise e, s).
Proof.
  intros Hex.
  destruct (create_query_raises_on_unrecognized data name Hex) as [e He].
  exists e. now rewrite create_db_mysql_unfold, He.
Qed.

Lemma create_db_mysql_unrecognized_leaves_database_witness :
  exists e,
    create_db_mysql MoreExamples.recording_cursor Examples.with_complex "t" []
    = (Raise e, []).
Proof.
  apply (create_db_mysql_unrecognized_leaves_database
           MoreExamples.recording_cursor Examples.with_complex "t" []).
  simpl. apply Exists_cons_tl, Exists_cons_hd. reflexivity.
Defined.

(** X7: for a frame without repeated labels whose labels all match,
    [create_db_mysql] hands the cursor one statement, the one that
    [create_query] returns for the frame and the table name, which
    starts with CREATE TABLE IF NOT EXISTS; it returns [None] when the
    cursor accepts the statement and raises what the cursor raises
    otherwise. *)
Theorem create_db_mysql_executes_statement
  {S : Type} (cursor : Cursor S) (data : DataFrame) (name : string) (s : S) :
  unique_labels data ->
  Forall (fun c => recognized (dtype c) = true) (columns data) ->
  exists q,
    create_query data name = Ok q /\
    String.prefix ("CREATE TABLE IF NOT EXISTS " ++ name ++ " (") q = true /\
    create_db_mysql cursor data name s
    = match cursor_execute cursor q s with
      | (Ok _, s') => (Ok PyNone, s')
      | (Raise e, s') => (Raise e, s')
      end.
Proof.
  intros Hu Hall.
  destruct (entries_of_recognized data Hu (columns data) (incl_refl _) Hall)
    as [types [_ Hm]].
  assert (Hq : exists rest,
             create_query data name
             = Ok (("CREATE TABLE IF NOT EXISTS " ++ name ++ " (") ++ rest)).
  { unfold create_query, dtypes. rewrite Hm. cbn [bind].
    eexists. rewrite !append_assoc. reflexivity. }
  destruct Hq as [rest Hq].
  eexists. split; [exact Hq|]. split.
  - apply prefix_app. now exists rest.
  - now rewrite create_db_mysql_unfold, Hq.
Qed.

Lemma create_db_mysql_executes_statement_witness :
  exists q,
    create_query Examples.people "t" = Ok q /\
    String.prefix ("CREATE TABLE IF NOT EXISTS " ++ "t" ++ " (") q = true /\
    create_db_mysql MoreExamples.recording_cursor Examples.people "t" []
    = match cursor_execute MoreExamples.recording_cursor q [] with
      | (Ok _, s') => (Ok PyNone, s')
      | (Raise e, s') => (Raise e, s')
      end.
Proof.
  apply (create_db_mysql_executes_statement
           MoreExamples.recording_cursor Examples.people "t" []).
  - distinct_labels.
  - all_columns.
Defined.

Example create_db_mysql_people :
  create_db_mysql MoreExamples.recording_cursor Examples.people "t" []
  = (Ok PyNone,
     ["CREATE TABLE IF NOT EXISTS t (id INT," ++ nl ++ "name VARCHAR(11),"
      ++ nl ++ "amt DOUBLE);"]).
Proof. reflexivity. Qed.

(** ** Further properties of the loader *)

(** X8: when the module namespace leaves one of [table_name], [columns]
    and [values] unbound, [load_transformed] raises the [NameError] of
    the first of them that is unbound, in this order, and the sink is
    left as it was; when it binds the three, the query text is built. *)
Theorem load_transformed_first_unbound_name
  {S : Type} (conn : Connection S) (format_table : string -> result string)
  (globals : namespace) (data : DataFrame) (s : S) :
  (forall x, first_unbound globals = Some x ->
     load_transformed conn format_table globals data s
     = (Raise (NameError ("name '" ++ x ++ "' is not defined")), s))
  /\ (first_unbound globals = None -> exists q, insert_query globals = Ok q).
Proof.
  unfold first_unbound, query_names, unbound, load_transformed, insert_query,
    load_global, seq_prog, lift.
  cbn [find].
  destruct (lookup globals "table_name") as [t|].
  - destruct (lookup globals "columns") as [c|].
    + destruct (lookup globals "values") as [v|].
      * split; [intros x H; discriminate H|]. intros _. cbn [bind].
        eexists. reflexivity.
      * split; [|intros H; discriminate H].
        intros x H. inversion H; subst. reflexivity.
    + split; [|intros H; discriminate H].
      intros x H. inversion H; subst. reflexivity.
  - split; [|intros H; discriminate H].
    intros x H. inversion H; subst. reflexivity.
Qed.

Lemma load_transformed_first_unbound_name_witness :
  load_transformed Examples.fake_mysql Examples.format_plain
    MoreExamples.half_bound_globals Examples.payments []
  = (Raise (NameError ("name '" ++ "columns" ++ "' is not defined")), []).
Proof.
  apply (proj1 (load_transformed_first_unbound_name
                  Examples.fake_mysql Examples.format_plain
                  MoreExamples.half_bound_globals Examples.payments [])).
  reflexivity.
Defined.

(** X9: what becomes of a write that fails.  When the query text is
    built, the connection is entered and [executemany] raises,
    [__exit__] is called with the exception.  If it returns a false
    value, the exception of [executemany] goes to the caller and
    [commit] is not called; if it raises, its exception goes to the
    caller and [commit] is not called; only if it returns a true value is
    the exception dropped, and then [commit] is called and the call
    returns [None] or raises what [commit] raises. *)
Theorem load_transformed_failed_write
  {S : Type} (conn : Connection S) (format_table : string -> result string)
  (globals : namespace) (data : DataFrame) (s s1 s2 : S)
  (q q' : string) (e : exn) :
  insert_query globals = Ok q ->
  cm_enter conn s = (Ok tt, s1) ->
  format_table q = Ok q' ->
  executemany conn q' (itertuples data) s1 = (Raise e, s2) ->
  load_transformed conn format_table globals data s
  = match cm_exit conn (Some e) s2 with
    | (Ok false, s3) => (Raise e, s3)
    | (Raise e', s3) => (Raise e', s3)
    | (Ok true, s3) =>
        match commit conn s3 with
        | (Ok _, s4) => (Ok PyNone, s4)
        | (Raise e', s4) => (Raise e', s4)
        end
    end.
Proof.
  intros Hq Henter Hfmt Hexec.
  unfold load_transformed, seq_prog, with_exit, lift, ret.
  rewrite Hq, Henter, Hfmt, Hexec.
  destruct (cm_exit conn (Some e) s2) as [[[|]|e'] s3]; reflexivity.
Qed.

Lemma load_transformed_failed_write_witness :
  load_transformed MoreExamples.refusing_mysql Examples.format_plain
    Examples.bound_globals Examples.payments []
  = (Raise (SinkError "refused"), ["enter"; "executemany"; "exit"]).
Proof.
  exact (load_transformed_failed_write
           MoreExamples.refusing_mysql Examples.format_plain
           Examples.bound_globals Examples.payments [] ["enter"]
           ["enter"; "executemany"] _ _ (SinkError "refused")
           eq_refl eq_refl eq_refl eq_refl).
Defined.

Example load_with_swallowing_exit :
  load_transformed MoreExamples.swallowing_mysql Examples.format_plain
    Examples.bound_globals Examples.payments []
  = (Ok PyNone, ["enter"; "executemany"; "exit"; "commit"]).
Proof. reflexivity. Qed.

(** ** The run of the warehouse *)

Section RunFacts.

Context {W obj : Type} (lib : Libraries W obj).

(** The three steps before line 364 do not ask for the methods of the
    cursor nor for [str.format]. *)
Lemma steps_without_cursor_methods
  (cur : obj -> Cursor W) (con : obj -> Connection W)
  (fmt : string -> result string) :
  initial_config_mongo (with_cursor_methods lib cur con fmt)
  = initial_config_mongo lib
  /\ (forall d c f, read_from_db (with_cursor_methods lib cur con fmt) d c f
                    = read_from_db lib d c f)
  /\ connect_to_mysql (with_cursor_methods lib cur con fmt)
     = connect_to_mysql lib.
Proof. repeat split. Qed.

(** The run up to the call of line 364. *)
Lemma execute_unfold (w : W) :
  execute lib w
  = match initial_config_mongo lib w with
    | (Raise e, w1) => (Raised e, w1)
    | (Ok p, w1) =>
        match read_from_db lib (snd p) (fst p) [] w1 with
        | (Raise e, w2) => (Raised e, w2)
        | (Ok data, w2) =>
            match connect_to_mysql lib w2 with
            | (Raise e, w3) => (Raised e, w3)
            | (Ok cursor, w3) =>
                (MissingArguments "create_db_mysql" ["cursor"; "data"; "name"],
                 w3)
            end
        end
    end.
Proof.
  unfold execute, and_then, of_prog, call3.
  destruct (initial_config_mongo lib w) as [[p|e] w1]; [|reflexivity].
  destruct (read_from_db lib (snd p) (fst p) [] w1) as [[data|e] w2];
    [|reflexivity].
  destruct (connect_to_mysql lib w2) as [[cursor|e] w3]; reflexivity.
Qed.

End RunFacts.

(** X10: [DataWarehouse.execute] never completes.  It ends with an
    exception of one of the three steps before line 364 (the set-up of
    Mongo, the read of the collection, the connection to MySQL) or, when
    the three return, with the refusal of the call [create_db_mysql()],
    which leaves its three arguments [cursor], [data] and [name] out. *)
Theorem execute_never_completes
  {W obj : Type} (lib : Libraries W obj) (w : W) :
  match fst (execute lib w) with
  | Returned _ => False
  | Raised _ => True
  | MissingArguments fn missing =>
      fn = "create_db_mysql" /\ missing = ["cursor"; "data"; "name"]
  end.
Proof.
  rewrite execute_unfold.
  destruct (initial_config_mongo lib w) as [[p|e] w1]; [|exact I].
  destruct (read_from_db lib (snd p) (fst p) [] w1) as [[data|e] w2];
    [|exact I].
  destruct (connect_to_mysql lib w2) as [[cursor|e] w3]; [|exact I].
  split; reflexivity.
Qed.

(** X11: [DataWarehouse.execute] creates no table and loads no row: its
    outcome and the state it leaves the world in are the same whatever
    the methods behind the cursor ([execute], [executemany], [commit],
    the [with] block) and whatever [str.format] do, so none of them is
    reached. *)
Theorem execute_never_reaches_cursor
  {W obj : Type} (lib : Libraries W obj)
  (cur : obj -> Cursor W) (con : obj -> Connection W)
  (fmt : string -> result string) (w : W) :
  execute (with_cursor_methods lib cur con fmt) w = execute lib w.
Proof.
  rewrite !execute_unfold.
  destruct (steps_without_cursor_methods lib cur con fmt) as [-> [Hread ->]].
  destruct (initial_config_mongo lib w) as [[p|e] w1]; [|reflexivity].
  rewrite Hread. reflexivity.
Qed.

Example execute_with_obliging_libraries :
  execute MoreExamples.obliging []
  = (MissingArguments "create_db_mysql" ["cursor"; "data"; "name"],
     ["import pymongo"; "MongoClient()"; "client.name"; "client.name.name";
      "import pandas"; "client.name[client.name.name].find"; "DataFrame";
      "import mysql"; "connect root@localhost"; "connection.cursor()"]).
Proof. reflexivity. Qed.

(** ** The run of the lake and the pipeline *)

Section LakeFacts.

Context {W obj : Type} (lib : Libraries W obj) (st : Lake.Storage W obj).

(** After the objects that load, the loop goes on from where they left
    the world, with the rounds that remain. *)
Lemma for_each_loads (collection it : obj) (w w' : W) (l : list obj) (fuel : nat) :
  Lake.loads lib st collection it w l w' ->
  Lake.for_each st (List.length l + fuel) it (Lake.load_object lib st collection) w
  = Lake.for_each st fuel it (Lake.load_object lib st collection) w'.
Proof.
  induction 1 as [w | w w1 w2 w' o l Hnext Hload _ IH]; [reflexivity|].
  cbn [List.length Nat.add Lake.for_each]. unfold seq_prog at 1.
  rewrite Hnext. unfold seq_prog at 1. rewrite Hload. exact IH.
Qed.

Lemma execute_after_set_up (fuel : nat) (self : Lake.DataLake)
  (collection it : obj) (w w0 : W) :
  Lake.set_up lib st self w = (Ok (collection, it), w0) ->
  Lake.execute lib st fuel self w
  = match Lake.for_each st fuel it (Lake.load_object lib st collection) w0 with
    | (Ok (Some _), w') => (Ok (Some PyNone), w')
    | (Ok None, w') => (Ok None, w')
    | (Raise e, w') => (Raise e, w')
    end.
Proof.
  intros Hset. unfold Lake.execute, seq_prog at 1. rewrite Hset.
  cbn [fst snd]. unfold seq_prog, ret.
  destruct (Lake.for_each st fuel it (Lake.load_object lib st collection) w0)
    as [[[[]|]|e] w']; reflexivity.
Qed.

End LakeFacts.

(** X12: [DataLake.execute] loads every listed object once, in the order
    of the listing.  When the steps before the loop return, the iterator
    hands out the objects [l], each of which is loaded and inserted
    without an exception, and then stops, the run returns [None] with the
    world as the last step left it, as soon as it is given more rounds
    than there are objects. *)
Theorem lake_execute_loads_listing
  {W obj : Type} (lib : Libraries W obj) (st : Lake.Storage W obj)
  (fuel : nat) (self : Lake.DataLake) (collection it : obj)
  (l : list obj) (w w0 w1 w2 : W) :
  Lake.set_up lib st self w = (Ok (collection, it), w0) ->
  Lake.loads lib st collection it w0 l w1 ->
  Lake.py_next st it w1 = (Ok None, w2) ->
  (List.length l < fuel)%nat ->
  Lake.execute lib st fuel self w = (Ok (Some PyNone), w2).
Proof.
  intros Hset Hloads Hstop Hfuel.
  rewrite (execute_after_set_up lib st fuel self collection it w w0 Hset).
  replace fuel with (List.length l + S (fuel - S (List.length l)))%nat by lia.
  rewrite (for_each_loads lib st collection it w0 w1 l _ Hloads).
  cbn [Lake.for_each]. unfold seq_prog. rewrite Hstop. reflexivity.
Qed.

Lemma lake_execute_loads_listing_witness :
  Lake.execute MoreExamples.toy_libraries MoreExamples.toy_storage 3
    MoreExamples.lake (["a"; "b"], [])
  = (Ok (Some PyNone), ([], ["doc a"; "doc b"])).
Proof.
  apply (lake_execute_loads_listing MoreExamples.toy_libraries
           MoreExamples.toy_storage 3 MoreExamples.lake
           "client.name.name" "de-tech-assessment-2022.objects.iter"
           ["a"; "b"] (["a"; "b"], []) (["a"; "b"], []) ([], ["doc a"; "doc b"])).
  - reflexivity.
  - apply (Lake.loads_cons _ _ _ _ _ (["b"], []) (["b"], ["doc a"]));
      [reflexivity | reflexivity |].
    apply (Lake.loads_cons _ _ _ _ _ ([], ["doc a"]) ([], ["doc a"; "doc b"]));
      [reflexivity | reflexivity |].
    apply Lake.loads_nil.
  - reflexivity.
  - simpl. lia.
Defined.

(** X13: [DataLake.execute] stops at the first object that does not
    load.  When the objects [l] before it are loaded and inserted and
    [extract_json] raises on the next one, the run raises that exception
    with the world as the failed load left it: the object is not
    inserted, the iterator is not asked again, and what was inserted
    before stays. *)
Theorem lake_execute_stops_at_failed_load
  {W obj : Type} (lib : Libraries W obj) (st : Lake.Storage W obj)
  (fuel : nat) (self : Lake.DataLake) (collection it o : obj)
  (l : list obj) (w w0 w1 w2 w3 : W) (e : exn) :
  Lake.set_up lib st self w = (Ok (collection, it), w0) ->
  Lake.loads lib st collection it w0 l w1 ->
  Lake.py_next st it w1 = (Ok (Some o), w2) ->
  Lake.extract_json lib st o w2 = (Raise e, w3) ->
  (List.length l < fuel)%nat ->
  Lake.execute lib st fuel self w = (Raise e, w3).
Proof.
  intros Hset Hloads Hnext Hfail Hfuel.
  rewrite (execute_after_set_up lib st fuel self collection it w w0 Hset).
  replace fuel with (List.length l + S (fuel - S (List.length l)))%nat by lia.
  rewrite (for_each_loads lib st collection it w0 w1 l _ Hloads).
  cbn [Lake.for_each]. unfold seq_prog at 1. rewrite Hnext.
  unfold seq_prog at 1. unfold Lake.load_object, seq_prog at 1.
  rewrite Hfail. reflexivity.
Qed.

Lemma lake_execute_stops_at_failed_load_witness :
  Lake.execute MoreExamples.toy_libraries MoreExamples.toy_storage 4
    MoreExamples.lake (["a"; "bad"; "c"], [])
  = (Raise (ValueError "no JSON"), (["c"], ["doc a"])).
Proof.
  apply (lake_execute_stops_at_failed_load MoreExamples.toy_libraries
           MoreExamples.toy_storage 4 MoreExamples.lake
           "client.name.name" "de-tech-assessment-2022.objects.iter" "bad"
           ["a"] (["a"; "bad"; "c"], []) (["a"; "bad"; "c"], [])
           (["bad"; "c"], ["doc a"]) (["c"], ["doc a"]) (["c"], ["doc a"])).
  - reflexivity.
  - apply (Lake.loads_cons _ _ _ _ _ (["bad"; "c"], []) (["bad"; "c"], ["doc a"]));
      [reflexivity | reflexivity |].
    apply Lake.loads_nil.
  - reflexivity.
  - reflexivity.
  - simpl. lia.
Defined.

(** X14: [pipeline] never completes and does not read its arguments.
    However many rounds the loop of the lake is given, the run ends with
    an exception, with the refused call of line 364, or with the loop of
    the lake still going; and two calls that differ in the credentials
    passed do the same. *)
Theorem pipeline_never_completes
  {W obj : Type} (lib : Libraries W obj) (st : Lake.Storage W obj)
  (fuel : nat) (access_key secret_access_key : string) (w : W) :
  match fst (Lake.pipeline lib st fuel access_key secret_access_key w) with
  | Returned (Some _) => False
  | _ => True
  end
  /\ forall access_key' secret_access_key',
       Lake.pipeline lib st fuel access_key secret_access_key w
       = Lake.pipeline lib st fuel access_key' secret_access_key' w.
Proof.
  split; [|reflexivity].
  unfold Lake.pipeline, and_then, of_prog.
  destruct (Lake.execute lib st fuel
              (Lake.mkDataLake "access key" "secret access key") w)
    as [[[r|]|e] w1]; cbn [fst]; try exact I.
  rewrite execute_unfold.
  destruct (initial_config_mongo lib w1) as [[p|e] w2]; [|exact I].
  destruct (read_from_db lib (snd p) (fst p) [] w2) as [[data|e] w3]; [|exact I].
  destruct (connect_to_mysql lib w3) as [[cursor|e] w4]; exact I.
Qed.

Example pipeline_with_toy_libraries :
  Lake.pipeline MoreExamples.toy_libraries MoreExamples.toy_storage 3
    "ak" "sak" (["a"; "b"], [])
  = (MissingArguments "create_db_mysql" ["cursor"; "data"; "name"],
     ([], ["doc a"; "doc b"])).
Proof. reflexivity. Qed.
